(** * The chat relay server: registry, fan-out and message dispatch

    A shallow embedding of the WebSocket part of the server script
    (the connection registry, [broadcast], [broadcastExcept] and the
    four event handlers installed by [wss.on('connection', ...)]),
    followed by the properties of the relay protocol.

    The handlers are written in a small monad that threads the two
    collections of the script ([connectedClients], [clientUsernames]),
    accumulates the observable effects (calls of [ws.send], console
    lines) and propagates JavaScript exceptions, so that [try]/[catch]
    and an exception escaping a handler are both part of the model. *)

From Stdlib Require Import Floats.SpecFloat.
From stdpp Require Import gmap strings list fin_maps.

Open Scope string_scope.
Open Scope list_scope.
Set Warnings "-register-all".

(** ** JavaScript values *)

(** The values a frame can carry after [JSON.parse], plus [undefined]
    (the result of reading a property that is not there).  A number is
    an IEEE double. *)
Inductive value : Type :=
  | VUndefined
  | VNull
  | VBool (b : bool)
  | VNum (x : spec_float)
  | VStr (s : string)
  | VArr (xs : list value)
  | VObj (props : list (string * value)).

(** ToBoolean, as used by [!x] and [if (x)]. *)
Definition truthy (v : value) : bool :=
  match v with
  | VUndefined | VNull => false
  | VBool b => b
  | VNum (S754_zero _) | VNum S754_nan => false
  | VNum _ => true
  | VStr s => negb (String.eqb s "")
  | VArr _ | VObj _ => true
  end.

(** Own property of an object built by [JSON.parse]; the list holds
    its members, one per key. *)
Fixpoint own (props : list (string * value)) (k : string) : option value :=
  match props with
  | [] => None
  | (k', v) :: rest => if String.eqb k' k then Some v else own rest k
  end.

(** ToString, as performed by a template literal [`${v}`]: whether it
    returns normally.  An object parsed from JSON inherits
    [Object.prototype.toString] unless it has an own property named
    [toString], which is then a JSON value and never callable: the
    conversion falls through [valueOf] and raises a TypeError.  An
    array is joined, converting every element other than [null] and
    [undefined]; the depth of nesting at which the engine runs out of
    stack in doing so is not modelled, so for arrays [true] stands for
    "converts unless nested too deep". *)
Fixpoint converts (v : value) : bool :=
  match v with
  | VObj props =>
      negb (existsb (fun kv => String.eqb (fst kv) "toString") props)
  | VArr xs => forallb converts xs
  | _ => true
  end.

(** ** Envelopes, effects and the registry *)

(** A connection object; [client !== excludeClient] compares
    references, here handles. *)
Definition ws := nat.

(** A piece of text: a literal, or a template literal
    [`${v}rest`] whose value converted normally. *)
Inductive text : Type :=
  | Lit (s : string)
  | Tpl (v : value) (rest : string).

(** The objects handed to [JSON.stringify] before [send].  Every
    envelope built by the server also carries [timestamp: Date.now()],
    which nothing in the server reads; it is left out. *)
Inductive envelope : Type :=
  | System (t : text)
  | OnlineCount (count : nat)
  | ErrorEnvelope (t : string)
  | Relay (message : value).

(** What a handler does to the outside, in order.  [Send c m] is a
    call [c.send(JSON.stringify(m))], whether or not it threw.  The
    two console lines written on entry of [broadcast] and of
    [broadcastExcept] have a constructor of their own. *)
Inductive effect : Type :=
  | Send (c : ws) (m : envelope)
  | LogBroadcast (size : nat) (m : envelope)
  | LogBroadcastExcept (m : envelope)
  | Log (line : string) (args : list value)
  | LogSize (line : string) (n : nat)
  | LogError (line : string).

Inductive exn : Type := SyntaxError | TypeError | SendFailure.

Inductive completion (A : Type) : Type :=
  | Normal (a : A)
  | Throw (e : exn).
Arguments Normal {A} a.
Arguments Throw {A} e.

(** The two module-level collections.  A JavaScript [Set] iterates in
    insertion order, so it is a duplicate-free list kept in that
    order; the [Map] is a finite map. *)
Record registry : Type := Registry {
  connectedClients : list ws;
  clientUsernames : gmap ws value
}.

Definition initial : registry := Registry [] ∅.

(** [Set.prototype.add], [Set.prototype.delete]. *)
Definition set_add (c : ws) (l : list ws) : list ws :=
  if bool_decide (c ∈ l) then l else l ++ [c].
Definition set_delete (c : ws) (l : list ws) : list ws :=
  filter (λ x, x ≠ c) l.

(** The transport below the server: the [readyState] of each socket
    and whether a given [send] throws.  It is fixed while one handler
    runs (handlers run to completion on the event loop) and arbitrary
    otherwise. *)
Record transport : Type := Transport {
  readyState : ws → nat;
  send_throws : ws → envelope → bool
}.

Definition OPEN : nat := 1.

(** [clientUsernames.set(c, username)] *)
Definition bound_to (c : ws) (username : value) (s : registry) : registry :=
  Registry (connectedClients s) (<[c := username]> (clientUsernames s)).

(** ** The handler monad *)

Definition M (A : Type) : Type :=
  registry → completion A * registry * list effect.

Definition ret {A} (a : A) : M A := λ s, (Normal a, s, []).

Definition bind {A B} (m : M A) (k : A → M B) : M B :=
  λ s,
    match m s with
    | (Normal a, s1, t1) =>
        match k a s1 with (r, s2, t2) => (r, s2, t1 ++ t2) end
    | (Throw e, s1, t1) => (Throw e, s1, t1)
    end.

Definition throw {A} (e : exn) : M A := λ s, (Throw e, s, []).

(** [try { m } catch (error) { h }] *)
Definition try_catch {A} (m : M A) (h : exn → M A) : M A :=
  λ s,
    match m s with
    | (Normal a, s1, t1) => (Normal a, s1, t1)
    | (Throw e, s1, t1) =>
        match h e s1 with (r, s2, t2) => (r, s2, t1 ++ t2) end
    end.

Definition gets {A} (f : registry → A) : M A := λ s, (Normal (f s), s, []).
Definition modify (f : registry → registry) : M unit :=
  λ s, (Normal tt, f s, []).
Definition emit (e : effect) : M unit := λ s, (Normal tt, s, [e]).

Declare Scope js_scope.
Delimit Scope js_scope with js.
Notation "'do' x <- m ; k" := (bind m (λ x, k))
  (at level 10, x name, m at level 100, k at level 200) : js_scope.
Notation "m ;; k" := (bind m (λ _, k))
  (at level 100, k at level 200, right associativity) : js_scope.
Open Scope js_scope.

(** [list.forEach(f)]: stops at the first call that throws. *)
Fixpoint forEach {A} (l : list A) (f : A → M unit) : M unit :=
  match l with
  | [] => ret tt
  | x :: rest => f x ;; forEach rest f
  end.

(** [`${v}rest`] *)
Definition render (v : value) (rest : string) : text :=
  match v with VStr s => Lit (s +:+ rest) | _ => Tpl v rest end.

Definition template (v : value) (rest : string) : M text :=
  if converts v then ret (render v rest) else throw TypeError.

(** [message.k]: reading a property of [null] or [undefined] throws;
    strings, numbers, booleans and arrays have none of the four names
    the server reads ([type], [username], [text], [isTyping]). *)
Definition prop (message : value) (k : string) : M value :=
  match message with
  | VUndefined | VNull => throw TypeError
  | VObj props => ret (default VUndefined (own props k))
  | _ => ret VUndefined
  end.

(** [v === 'literal'] *)
Definition is_string (v : value) (lit : string) : bool :=
  match v with VStr s => String.eqb s lit | _ => false end.

(** An inbound frame: its text either is JSON or is not. *)
Inductive frame : Type :=
  | NotJSON (raw : string)
  | JSONText (v : value).

Definition JSON_parse (data : frame) : M value :=
  match data with
  | NotJSON _ => throw SyntaxError
  | JSONText v => ret v
  end.

(** ** The server *)

Section Server.

Context (net : transport).

(** [ws.send(JSON.stringify(m))] *)
Definition ws_send (c : ws) (m : envelope) : M unit :=
  emit (Send c m) ;;
  if send_throws net c m then throw SendFailure else ret tt.

Definition getOnlineCount : M nat :=
  gets (λ s, size (clientUsernames s)).

(** The body shared by the two fan-out loops. *)
Definition deliver (m : envelope) (client : ws) : M unit :=
  try_catch (ws_send client m)
    (λ _, emit (LogError "[WebSocket] Error sending to client:")).

Definition broadcast (m : envelope) : M unit :=
  do n <- gets (λ s, length (connectedClients s));
  emit (LogBroadcast n m) ;;
  do clients <- gets connectedClients;
  forEach clients (λ client,
    if bool_decide (readyState net client = OPEN)
    then deliver m client
    else ret tt).

Definition broadcastExcept (m : envelope) (excludeClient : ws) : M unit :=
  emit (LogBroadcastExcept m) ;;
  do clients <- gets connectedClients;
  forEach clients (λ client,
    if bool_decide (client ≠ excludeClient)
       && bool_decide (readyState net client = OPEN)
    then deliver m client
    else ret tt).

Definition broadcastOnlineCount : M unit :=
  do count <- getOnlineCount;
  broadcast (OnlineCount count).

(** [wss.on('connection', (ws) => ...)], up to the registration of
    the three listeners. *)
Definition on_connection (c : ws) : M unit :=
  emit (Log "[WebSocket] New client connected" []) ;;
  do n <- gets (λ s, length (connectedClients s));
  emit (LogSize "[WebSocket] Total clients: " (n + 1)) ;;
  modify (λ s, Registry (set_add c (connectedClients s)) (clientUsernames s)) ;;
  try_catch
    (ws_send c (System (Lit "Welcome to the chat! You are now connected.")))
    (λ _, emit (LogError "[WebSocket] Error sending welcome message:")) ;;
  do count <- getOnlineCount;
  try_catch (ws_send c (OnlineCount count))
    (λ _, emit (LogError "[WebSocket] Error sending online count:")).

(** The block both message branches run for a new user: bind the
    name, log it, announce the join, then the count. *)
Definition announce (c : ws) (username : value) (line : string) : M unit :=
  modify (bound_to c username) ;;
  do who <- template username "";
  emit (Log line [username]) ;;
  do joined <- template username " joined the chat";
  broadcast (System joined) ;;
  broadcastOnlineCount.

(** The body of the [try] of [ws.on('message', (data) => ...)]. *)
Definition dispatch (c : ws) (data : frame) : M unit :=
  do message <- JSON_parse data;
  emit (Log "[WebSocket] Parsed message:" [message]) ;;
  do isNewUser <- gets (λ s, bool_decide (clientUsernames s !! c = None));
  do type <- prop message "type";
  if is_string type "chat-message" then
    do username <- prop message "username";
    do text <- prop message "text";
    if negb (truthy username) || negb (truthy text) then
      emit (LogError
              "[WebSocket] Invalid chat message - missing username or text")
    else
      (if isNewUser && truthy username
       then announce c username "[WebSocket] User joined: "
       else ret tt) ;;
      do who <- template username ": ";
      do what <- template text "";
      emit (Log "[WebSocket] " [username; text]) ;;
      broadcast (Relay message)
  else if is_string type "typing" then
    do username <- prop message "username";
    do isTyping <- prop message "isTyping";
    if negb (truthy username)
       || match isTyping with VUndefined => true | _ => false end then
      emit (LogError
              "[WebSocket] Invalid typing message - missing username or isTyping")
    else
      (if isNewUser && truthy username
       then announce c username "[WebSocket] User registered via typing: "
       else ret tt) ;;
      do who <- template username " is typing: ";
      do what <- template isTyping "";
      emit (Log "[WebSocket] is typing" [username; isTyping]) ;;
      broadcastExcept (Relay message) c
  else
    emit (Log "[WebSocket] Unknown message type:" [type]).

(** [ws.on('message', (data) => ...)] *)
Definition on_message (c : ws) (data : frame) : M unit :=
  emit (Log "[WebSocket] Received raw data:" []) ;;
  try_catch (dispatch c data)
    (λ _,
      emit (LogError "[WebSocket] Error processing message:") ;;
      try_catch (ws_send c (ErrorEnvelope "Failed to process message"))
        (λ _, emit (LogError "[WebSocket] Error sending error message:"))).

(** The removal both lifecycle listeners start with. *)
Definition unregister (c : ws) : M value :=
  do username <- gets (λ s, default VUndefined (clientUsernames s !! c));
  modify (λ s, Registry (set_delete c (connectedClients s))
                        (clientUsernames s)) ;;
  modify (λ s, Registry (connectedClients s)
                        (delete c (clientUsernames s))) ;;
  ret username.

(** [ws.on('close', () => ...)] *)
Definition on_close (c : ws) : M unit :=
  emit (Log "[WebSocket] Client disconnected" []) ;;
  do username <- unregister c;
  do n <- gets (λ s, length (connectedClients s));
  emit (LogSize "[WebSocket] Total clients: " n) ;;
  if truthy username then
    do who <- template username "";
    emit (Log "[WebSocket] User left: " [username]) ;;
    do left <- template username " left the chat";
    broadcast (System left) ;;
    broadcastOnlineCount
  else ret tt.

(** [ws.on('error', (error) => ...)] *)
Definition on_error (c : ws) : M unit :=
  emit (LogError "[WebSocket] Client error:") ;;
  do username <- unregister c;
  if truthy username then
    do left <- template username " left the chat";
    broadcast (System left) ;;
    broadcastOnlineCount
  else ret tt.

End Server.

Arguments broadcast : simpl never.
Arguments broadcastExcept : simpl never.
Arguments broadcastOnlineCount : simpl never.
Arguments announce : simpl never.

(** ** The event loop *)

(** What the WebSocket library delivers to the listeners. *)
Inductive event : Type :=
  | Connection (c : ws)
  | Message (c : ws) (data : frame)
  | Close (c : ws)
  | Error (c : ws).

Definition handle (net : transport) (e : event) : M unit :=
  match e with
  | Connection c => on_connection net c
  | Message c data => on_message net c data
  | Close c => on_close net c
  | Error c => on_error net c
  end.

(** A session's life ends with its [close] or [error]: frames are
    delivered only for sessions that are still registered.  The other
    events can come at any time ([close] follows [error] for the same
    socket, for one). *)
Definition enabled (s : registry) (e : event) : bool :=
  match e with
  | Message c _ => bool_decide (c ∈ connectedClients s)
  | _ => true
  end.

(** The states the server goes through.  A listener that lets an
    exception escape ends the process: there is no state after it. *)
Inductive reachable : registry → Prop :=
  | reachable_initial : reachable initial
  | reachable_step s net e s' t :
      reachable s →
      enabled s e = true →
      handle net e s = (Normal tt, s', t) →
      reachable s'.

(** Running a script of events, each under its own transport. *)
Fixpoint run (script : list (transport * event)) (s : registry)
  : option (registry * list effect) :=
  match script with
  | [] => Some (s, [])
  | (net, e) :: rest =>
      if enabled s e then
        match handle net e s with
        | (Normal _, s1, t1) =>
            match run rest s1 with
            | Some (s2, t2) => Some (s2, t1 ++ t2)
            | None => None
            end
        | (Throw _, _, _) => None
        end
      else None
  end.

(** ** Reading a trace *)

(** The envelopes passed to [broadcast], in call order: each call
    writes exactly one [LogBroadcast] line, on entry. *)
Definition broadcasts (t : list effect) : list envelope :=
  omap (λ e, match e with LogBroadcast _ m => Some m | _ => None end) t.

(** The same for [broadcastExcept]. *)
Definition broadcastsExcept (t : list effect) : list envelope :=
  omap (λ e, match e with LogBroadcastExcept m => Some m | _ => None end) t.

(** All calls of [send]. *)
Definition sends (t : list effect) : list (ws * envelope) :=
  omap (λ e, match e with Send c m => Some (c, m) | _ => None end) t.

(** The deliveries of relayed client messages. *)
Definition relayed (t : list effect) : list (ws * value) :=
  omap (λ e, match e with
             | Send c (Relay v) => Some (c, v)
             | _ => None
             end) t.

(** ** Messages of the wire protocol *)

(** [message.k] when [message] is an object (no exception). *)
Definition field (message : value) (k : string) : value :=
  match message with
  | VObj props => default VUndefined (own props k)
  | _ => VUndefined
  end.

Definition nonempty_string (v : value) : bool :=
  match v with VStr s => negb (String.eqb s "") | _ => false end.

Definition empty_or_missing (v : value) : bool :=
  match v with
  | VUndefined => true
  | VStr s => String.eqb s ""
  | _ => false
  end.

(** The envelope structure of the wire protocol: a chat message has a
    non-empty [username] and a non-empty [text], both strings. *)
Definition valid_chat (message : value) : bool :=
  is_string (field message "type") "chat-message"
  && nonempty_string (field message "username")
  && nonempty_string (field message "text").

(** A typing message has a non-empty string [username] and a boolean
    [isTyping]. *)
Definition valid_typing (message : value) : bool :=
  is_string (field message "type") "typing"
  && nonempty_string (field message "username")
  && match field message "isTyping" with VBool _ => true | _ => false end.

(** The effects of one fan-out loop over the sockets it writes to:
    one [send] each, and the console line of the [catch] after a
    [send] that threw. *)
Definition fanout (net : transport) (m : envelope) (targets : list ws)
  : list effect :=
  targets ≫= λ c,
    Send c m ::
    if send_throws net c m
    then [LogError "[WebSocket] Error sending to client:"]
    else [].

(** ** Traces of the handlers *)

Definition broadcast_trace (net : transport) (m : envelope) (s : registry)
  : list effect :=
  LogBroadcast (length (connectedClients s)) m ::
  fanout net m (filter (λ c, readyState net c = OPEN) (connectedClients s)).

Definition announce_trace (net : transport) (username : value)
    (line : string) (s : registry) : list effect :=
  Log line [username] ::
  broadcast_trace net (System (render username " joined the chat")) s
  ++ broadcast_trace net (OnlineCount (size (clientUsernames s))) s.

(** The registry after either lifecycle listener. *)
Definition unregistered (c : ws) (s : registry) : registry :=
  Registry (set_delete c (connectedClients s)) (delete c (clientUsernames s)).

Definition identity (c : ws) (s : registry) : value :=
  default VUndefined (clientUsernames s !! c).

Definition leave_trace (net : transport) (username : value) (s : registry)
  : list effect :=
  broadcast_trace net (System (render username " left the chat")) s
  ++ broadcast_trace net (OnlineCount (size (clientUsernames s))) s.

(** ** The registry invariant *)

(** Every session is registered once, only registered sessions have
    a name, and every stored name is truthy. *)
Record consistent (s : registry) : Prop := Consistent {
  live_once : NoDup (connectedClients s);
  bound_live c :
    is_Some (clientUsernames s !! c) → c ∈ connectedClients s;
  bound_truthy c u : clientUsernames s !! c = Some u → truthy u = true
}.

(** Counting the registered sessions that have a name. *)
Definition bound_sessions (s : registry) : list ws :=
  filter (λ c, is_Some (clientUsernames s !! c)) (connectedClients s).

(** ** Sample traffic *)

(** Every socket open, no [send] throws. *)
Definition calm : transport := Transport (λ _, OPEN) (λ _ _, false).

(** Socket 1 is closing, and every [send] to socket 0 throws. *)
Definition rough : transport :=
  Transport (λ c, if decide (c = 1) then 2 else OPEN)
            (λ c _, bool_decide (c = 0)).

Definition chat_message (username text : value) : value :=
  VObj [("type", VStr "chat-message"); ("username", username);
        ("text", text)].

Definition typing_message (username isTyping : value) : value :=
  VObj [("type", VStr "typing"); ("username", username);
        ("isTyping", isTyping)].

(** [{"toString": 0}]: truthy, and not convertible to a string. *)
Definition unprintable : value := VObj [("toString", VNum (S754_zero false))].

(** Sessions 0, 1 and 2 are connected and session 0 has said "hi" as
    Alice. *)
Definition alice_and_two_lurkers : registry :=
  Registry [0; 1; 2] {[ 0 := VStr "Alice" ]}.

(** ** Display names, as the page checks them *)

(** The white space [String.prototype.trim] removes, within ASCII. *)
Definition is_space (a : Ascii.ascii) : bool :=
  match Ascii.nat_of_ascii a with
  | 9 | 10 | 11 | 12 | 13 | 32 => true
  | _ => false
  end.

Fixpoint trim_start (s : string) : string :=
  match s with
  | EmptyString => EmptyString
  | String a rest => if is_space a then trim_start rest else s
  end.

Definition trim (s : string) : string :=
  String.rev (trim_start (String.rev (trim_start s))).

(** The condition of [saveUsername] in the page script: a string of
    at least two characters once trimmed.  Faithful on ASCII input
    only: the page counts UTF-16 units and trims Unicode white space,
    the model counts bytes and trims ASCII white space. *)
Definition display_name (v : value) : bool :=
  match v with
  | VStr s => bool_decide (2 ≤ String.length (trim s))%nat
  | _ => false
  end.

(** ** More traces of the message listener *)

(** The effects of the [catch] block of the message listener. *)
Definition caught (net : transport) (c : ws) : list effect :=
  [LogError "[WebSocket] Error processing message:";
   Send c (ErrorEnvelope "Failed to process message")]
  ++ if send_throws net c (ErrorEnvelope "Failed to process message")
     then [LogError "[WebSocket] Error sending error message:"]
     else [].

(** A message that gets past the check of its branch. *)
Definition passes_chat_check (message : value) : bool :=
  is_string (field message "type") "chat-message"
  && truthy (field message "username")
  && truthy (field message "text").

Definition passes_typing_check (message : value) : bool :=
  is_string (field message "type") "typing"
  && truthy (field message "username")
  && match field message "isTyping" with VUndefined => false | _ => true end.

(** The frames of one session, each under its own transport. *)
Definition frames_of (c : ws) (frames : list (transport * frame))
  : list (transport * event) :=
  map (λ p, (p.1, Message c p.2)) frames.

(** A frame that neither branch of the listener accepts. *)
Definition unaccepted (data : frame) : bool :=
  match data with
  | NotJSON _ => true
  | JSONText message =>
      negb (passes_chat_check message) && negb (passes_typing_check message)
  end.

(** ** Sessions, as the script of events has them *)

(** The sessions that are live after a script of events, read off the
    events alone: a session is live from its connection to its
    [close] or [error]. *)
Definition live_step (live : gset ws) (e : event) : gset ws :=
  match e with
  | Connection c => {[ c ]} ∪ live
  | Message _ _ => live
  | Close c | Error c => live ∖ {[ c ]}
  end.

Definition live_sessions (history : list event) : gset ws :=
  foldl live_step ∅ history.

(** The sessions that have got a name, read off the events alone:
    those that have sent a frame which passes the check of a branch
    and have not closed or errored since. *)
Definition named_step (named : gset ws) (e : event) : gset ws :=
  match e with
  | Connection _ => named
  | Message c data => if unaccepted data then named else {[ c ]} ∪ named
  | Close c | Error c => named ∖ {[ c ]}
  end.

Definition named_sessions (history : list event) : gset ws :=
  foldl named_step ∅ history.

(** The values whose conversion to a string does not recurse:
    everything but arrays. *)
Definition converts_plainly (v : value) : bool :=
  match v with
  | VArr _ => false
  | _ => converts v
  end.

(** Alice and Bob get a name, a third session lurks, and Alice
    closes. *)
Definition alice_closes : list (transport * event) :=
  [(calm, Connection 0); (calm, Connection 1); (calm, Connection 2);
   (calm, Message 0 (JSONText (chat_message (VStr "Alice") (VStr "hi"))));
   (rough, Message 1 (JSONText (typing_message (VStr "Bob") (VBool true))));
   (calm, Close 0)].

(** The registry agrees with the script. *)
Record tracks (s : registry) (live named : gset ws) : Prop := Tracks {
  tracks_live : ∀ c, c ∈ connectedClients s ↔ c ∈ live;
  tracks_named : dom (clientUsernames s) = named;
  tracks_subset : named ⊆ live
}.

(** ** Static files *)

(** What a request does to the disk, the console and the response
    object [res], in order. *)
Inductive http_effect : Type :=
  | LogRequest (pathname : string)
  | ReadFile (filePath : string)
  | WriteHead (status : nat) (contentType : string)
  | EndWith (body : string).

Section Static.

(** [__dirname], [path.join], [path.extname], and the disk as
    [fs.readFile] finds it: [None] when it reports an error. *)
Context (dirname : string)
        (path_join : list string → string)
        (path_extname : string → string)
        (disk : string → option string).

Definition serveStaticFile (filePath : string) : list http_effect :=
  ReadFile filePath ::
  match disk filePath with
  | None => [WriteHead 404 "text/plain"; EndWith "404 - File Not Found"]
  | Some data =>
      let ext := path_extname filePath in
      let contentType :=
        if String.eqb ext ".css" then "text/css"
        else if String.eqb ext ".js" then "application/javascript"
        else if String.eqb ext ".html" then "text/html"
        else "text/html" in
      [WriteHead 200 contentType; EndWith data]
  end.


End Static.


Definition heads_written (t : list http_effect) : list (nat * string) :=
  omap (λ e, match e with WriteHead st ct => Some (st, ct) | _ => None end) t.


(** A small disk, for examples. *)
Definition sample_extname (p : string) : string :=
  if String.eqb p "/app/public/style.css" then ".css"
  else if String.eqb p "/app/public/logo.png" then ".png"
  else "".

Definition sample_disk (p : string) : option string :=
  if String.eqb p "/app/public/style.css" then Some "body {}"
  else if String.eqb p "/app/public/logo.png" then Some "PNG"
  else None.

(** ** Basic facts *)

Lemma broadcasts_app t1 t2 :
  broadcasts (t1 ++ t2) = broadcasts t1 ++ broadcasts t2.
Proof. apply omap_app. Qed.

Lemma broadcastsExcept_app t1 t2 :
  broadcastsExcept (t1 ++ t2) = broadcastsExcept t1 ++ broadcastsExcept t2.
Proof. apply omap_app. Qed.

Lemma sends_app t1 t2 : sends (t1 ++ t2) = sends t1 ++ sends t2.
Proof. apply omap_app. Qed.

Lemma relayed_app t1 t2 : relayed (t1 ++ t2) = relayed t1 ++ relayed t2.
Proof. apply omap_app. Qed.

Lemma fanout_cons net m c l :
  fanout net m (c :: l)
  = Send c m ::
    (if send_throws net c m
     then [LogError "[WebSocket] Error sending to client:"] else [])
    ++ fanout net m l.
Proof. reflexivity. Qed.

Lemma sends_fanout net m l : sends (fanout net m l) = map (λ c, (c, m)) l.
Proof.
  induction l as [|c l IH]; [reflexivity|].
  rewrite fanout_cons. cbn. rewrite sends_app, IH.
  destruct (send_throws net c m); reflexivity.
Qed.

Lemma broadcasts_fanout net m l : broadcasts (fanout net m l) = [].
Proof.
  induction l as [|c l IH]; [reflexivity|].
  rewrite fanout_cons. cbn. rewrite broadcasts_app, IH.
  destruct (send_throws net c m); reflexivity.
Qed.

Lemma broadcastsExcept_fanout net m l : broadcastsExcept (fanout net m l) = [].
Proof.
  induction l as [|c l IH]; [reflexivity|].
  rewrite fanout_cons. cbn. rewrite broadcastsExcept_app, IH.
  destruct (send_throws net c m); reflexivity.
Qed.

Lemma relayed_fanout_relay net v l :
  relayed (fanout net (Relay v) l) = map (λ c, (c, v)) l.
Proof.
  induction l as [|c l IH]; [reflexivity|].
  rewrite fanout_cons. cbn. rewrite relayed_app, IH.
  destruct (send_throws net c (Relay v)); reflexivity.
Qed.

Lemma relayed_fanout_other net m l :
  (∀ v, m ≠ Relay v) → relayed (fanout net m l) = [].
Proof.
  intros Hm. induction l as [|c l IH]; [reflexivity|].
  rewrite fanout_cons.
  destruct m as [t|n|e|v]; try (cbn; rewrite relayed_app, IH;
    destruct (send_throws net c _); reflexivity).
  exfalso. by eapply Hm.
Qed.

(** One iteration of either loop: the [try]/[catch] around [send]
    absorbs the exception. *)
Lemma deliver_run net m c s :
  deliver net m c s = (Normal tt, s, fanout net m [c]).
Proof.
  unfold deliver, try_catch, ws_send, bind, emit, fanout. cbn.
  destruct (send_throws net c m); reflexivity.
Qed.

Lemma forEach_deliver net m (b : ws → bool) l s :
  forEach l (λ client, if b client then deliver net m client else ret tt) s
  = (Normal tt, s, fanout net m (filter (λ c, b c = true) l)).
Proof.
  induction l as [|c l IH]; [reflexivity|].
  cbn [forEach]. unfold bind at 1. rewrite filter_cons.
  destruct (b c) eqn:Hb.
  - rewrite deliver_run, IH. rewrite decide_True by done.
    rewrite fanout_cons. f_equal. cbn.
    destruct (send_throws net c m); reflexivity.
  - cbn. rewrite IH. rewrite decide_False by done. reflexivity.
Qed.

Lemma broadcast_run net m s :
  broadcast net m s
  = (Normal tt, s,
     LogBroadcast (length (connectedClients s)) m ::
     fanout net m
       (filter (λ c, readyState net c = OPEN) (connectedClients s))).
Proof.
  unfold broadcast, bind, gets, emit. cbn.
  rewrite (forEach_deliver net m
             (λ c, bool_decide (readyState net c = OPEN))).
  do 3 f_equal. apply list_filter_iff. intros c.
  by rewrite bool_decide_eq_true.
Qed.

Lemma broadcastExcept_run net m ex s :
  broadcastExcept net m ex s
  = (Normal tt, s,
     LogBroadcastExcept m ::
     fanout net m
       (filter (λ c, c ≠ ex ∧ readyState net c = OPEN)
          (connectedClients s))).
Proof.
  unfold broadcastExcept, bind, gets, emit. cbn.
  rewrite (forEach_deliver net m
             (λ c, bool_decide (c ≠ ex)
                   && bool_decide (readyState net c = OPEN))).
  do 3 f_equal. apply list_filter_iff. intros c.
  by rewrite andb_true_iff, !bool_decide_eq_true.
Qed.

Lemma broadcastOnlineCount_run net s :
  broadcastOnlineCount net s
  = (Normal tt, s,
     LogBroadcast (length (connectedClients s))
       (OnlineCount (size (clientUsernames s))) ::
     fanout net (OnlineCount (size (clientUsernames s)))
       (filter (λ c, readyState net c = OPEN) (connectedClients s))).
Proof.
  unfold broadcastOnlineCount, getOnlineCount, bind, gets.
  rewrite broadcast_run. reflexivity.
Qed.

(** ** What each handler does *)

Lemma announce_run net c username line s :
  converts username = true →
  announce net c username line s
  = (Normal tt, bound_to c username s,
     announce_trace net username line (bound_to c username s)).
Proof.
  intros Hc. unfold announce, template, bind, modify, emit.
  rewrite Hc. cbn.
  rewrite broadcast_run, broadcastOnlineCount_run. reflexivity.
Qed.

Lemma announce_throws net c username line s :
  converts username = false →
  announce net c username line s
  = (Throw TypeError, bound_to c username s, []).
Proof.
  intros Hc. unfold announce, template, bind, modify. rewrite Hc.
  reflexivity.
Qed.

(** A chat message that passes the check of the handler and whose
    two fields convert to strings. *)
Lemma on_message_chat net c message s :
  is_string (field message "type") "chat-message" = true →
  truthy (field message "username") = true →
  truthy (field message "text") = true →
  converts (field message "username") = true →
  converts (field message "text") = true →
  let new := bool_decide (clientUsernames s !! c = None) in
  let s' := if new then bound_to c (field message "username") s else s in
  on_message net c (JSONText message) s
  = (Normal tt, s',
     Log "[WebSocket] Received raw data:" [] ::
     Log "[WebSocket] Parsed message:" [message] ::
     (if new
      then announce_trace net (field message "username")
             "[WebSocket] User joined: " s'
      else [])
     ++ Log "[WebSocket] " [field message "username"; field message "text"]
     :: broadcast_trace net (Relay message) s').
Proof.
  intros Hty Hu Ht Hcu Hct new s'.
  destruct message as [| | | | |xs|props]; try discriminate Hty.
  cbn [field] in *.
  unfold on_message, dispatch, try_catch, bind, emit, gets, prop, ret. cbn.
  rewrite Hty, Hu, Ht. cbn. rewrite andb_true_r. fold new.
  unfold template. rewrite Hcu, Hct.
  subst s'. destruct new.
  - rewrite announce_run by done. cbn. rewrite broadcast_run. reflexivity.
  - cbn. rewrite broadcast_run. reflexivity.
Qed.

(** A typing message that passes the check of the handler and whose
    two fields convert to strings. *)
Lemma on_message_typing net c message s :
  is_string (field message "type") "typing" = true →
  truthy (field message "username") = true →
  field message "isTyping" ≠ VUndefined →
  converts (field message "username") = true →
  converts (field message "isTyping") = true →
  let new := bool_decide (clientUsernames s !! c = None) in
  let s' := if new then bound_to c (field message "username") s else s in
  on_message net c (JSONText message) s
  = (Normal tt, s',
     Log "[WebSocket] Received raw data:" [] ::
     Log "[WebSocket] Parsed message:" [message] ::
     (if new
      then announce_trace net (field message "username")
             "[WebSocket] User registered via typing: " s'
      else [])
     ++ Log "[WebSocket] is typing"
          [field message "username"; field message "isTyping"]
     :: LogBroadcastExcept (Relay message)
     :: fanout net (Relay message)
          (filter (λ x, x ≠ c ∧ readyState net x = OPEN)
             (connectedClients s'))).
Proof.
  intros Hty Hu Hi Hcu Hci new s'.
  destruct message as [| | | | |xs|props]; try discriminate Hty.
  cbn [field] in *.
  assert (is_string (default VUndefined (own props "type")) "chat-message"
          = false) as Hnc.
  { destruct (default VUndefined (own props "type")); try done.
    cbn in *. apply String.eqb_eq in Hty as ->. reflexivity. }
  unfold on_message, dispatch, try_catch, bind, emit, gets, prop, ret. cbn.
  rewrite Hnc, Hty, Hu. cbn. rewrite andb_true_r. fold new.
  unfold template. rewrite Hcu, Hci.
  assert (match default VUndefined (own props "isTyping") with
          | VUndefined => true | _ => false end = false) as ->.
  { by destruct (default VUndefined (own props "isTyping")). }
  subst s'. destruct new.
  - rewrite announce_run by done. cbn. rewrite broadcastExcept_run.
    reflexivity.
  - cbn. rewrite broadcastExcept_run. reflexivity.
Qed.

(** The early [return] of the chat branch. *)
Lemma on_message_chat_rejected net c message s :
  is_string (field message "type") "chat-message" = true →
  truthy (field message "username") = false
  ∨ truthy (field message "text") = false →
  on_message net c (JSONText message) s
  = (Normal tt, s,
     [Log "[WebSocket] Received raw data:" [];
      Log "[WebSocket] Parsed message:" [message];
      LogError "[WebSocket] Invalid chat message - missing username or text"]).
Proof.
  intros Hty Hbad.
  destruct message as [| | | | |xs|props]; try discriminate Hty.
  cbn [field] in *.
  unfold on_message, dispatch, try_catch, bind, emit, gets, prop, ret. cbn.
  rewrite Hty.
  destruct Hbad as [-> | ->]; cbn; [|rewrite orb_true_r]; reflexivity.
Qed.

(** The early [return] of the typing branch. *)
Lemma on_message_typing_rejected net c message s :
  is_string (field message "type") "typing" = true →
  truthy (field message "username") = false
  ∨ field message "isTyping" = VUndefined →
  on_message net c (JSONText message) s
  = (Normal tt, s,
     [Log "[WebSocket] Received raw data:" [];
      Log "[WebSocket] Parsed message:" [message];
      LogError
        "[WebSocket] Invalid typing message - missing username or isTyping"]).
Proof.
  intros Hty Hbad.
  destruct message as [| | | | |xs|props]; try discriminate Hty.
  cbn [field] in *.
  assert (is_string (default VUndefined (own props "type")) "chat-message"
          = false) as Hnc.
  { destruct (default VUndefined (own props "type")); try done.
    cbn in *. apply String.eqb_eq in Hty as ->. reflexivity. }
  unfold on_message, dispatch, try_catch, bind, emit, gets, prop, ret. cbn.
  rewrite Hnc, Hty.
  destruct Hbad as [-> | ->]; cbn; [|rewrite orb_true_r]; reflexivity.
Qed.

(** The [catch] of the message listener after [JSON.parse] threw. *)
Lemma on_message_not_json net c raw s :
  on_message net c (NotJSON raw) s
  = (Normal tt, s,
     [Log "[WebSocket] Received raw data:" [];
      LogError "[WebSocket] Error processing message:";
      Send c (ErrorEnvelope "Failed to process message")]
     ++ if send_throws net c (ErrorEnvelope "Failed to process message")
        then [LogError "[WebSocket] Error sending error message:"]
        else []).
Proof.
  unfold on_message, dispatch, try_catch, bind, emit, ws_send. cbn.
  destruct (send_throws net c _); reflexivity.
Qed.

Lemma on_close_run net c s :
  on_close net c s
  = let s' := unregistered c s in
    let head := [Log "[WebSocket] Client disconnected" [];
                 LogSize "[WebSocket] Total clients: "
                   (length (connectedClients s'))] in
    if truthy (identity c s) then
      if converts (identity c s) then
        (Normal tt, s',
         head ++ Log "[WebSocket] User left: " [identity c s]
              :: leave_trace net (identity c s) s')
      else (Throw TypeError, s', head)
    else (Normal tt, s', head).
Proof.
  unfold on_close, unregister, bind, emit, gets, modify, ret. cbn.
  fold (identity c s). fold (unregistered c s).
  destruct (truthy (identity c s)); [|reflexivity].
  unfold template. destruct (converts (identity c s)); [|reflexivity].
  cbn. rewrite broadcast_run, broadcastOnlineCount_run. reflexivity.
Qed.

Lemma on_error_run net c s :
  on_error net c s
  = let s' := unregistered c s in
    if truthy (identity c s) then
      if converts (identity c s) then
        (Normal tt, s',
         LogError "[WebSocket] Client error:"
         :: leave_trace net (identity c s) s')
      else (Throw TypeError, s', [LogError "[WebSocket] Client error:"])
    else (Normal tt, s', [LogError "[WebSocket] Client error:"]).
Proof.
  unfold on_error, unregister, bind, emit, gets, modify, ret. cbn.
  fold (identity c s). fold (unregistered c s).
  destruct (truthy (identity c s)); [|reflexivity].
  unfold template. destruct (converts (identity c s)); [|reflexivity].
  cbn. rewrite broadcast_run, broadcastOnlineCount_run. reflexivity.
Qed.

Lemma on_connection_registry net c s r s' t :
  on_connection net c s = (r, s', t) →
  r = Normal tt
  ∧ s' = Registry (set_add c (connectedClients s)) (clientUsernames s).
Proof.
  unfold on_connection, try_catch, ws_send, getOnlineCount, bind, emit,
    gets, modify, ret, throw. cbn.
  repeat (destruct (send_throws net c _)); cbn; intros [= <- <- <-]; done.
Qed.

(** The message listener never lets an exception escape, and the only
    thing it ever does to the registry is to bind a truthy name to a
    sender that had none. *)
Lemma on_message_registry net c data s r s' t :
  on_message net c data s = (r, s', t) →
  r = Normal tt
  ∧ (s' = s
     ∨ ∃ u, truthy u = true ∧ clientUsernames s !! c = None
            ∧ s' = bound_to c u s).
Proof.
  destruct data as [raw|message].
  { rewrite on_message_not_json. intros [= <- <- <-]. auto. }
  unfold on_message, dispatch, try_catch, bind, emit, gets, prop, ret,
    ws_send, throw. cbn.
  destruct message as [| | | | |xs|props]; cbn;
    try (try destruct (send_throws net c _); intros [= <- <- <-]; by auto).
  set (ty := default VUndefined (own props "type")).
  set (u := default VUndefined (own props "username")).
  set (tx := default VUndefined (own props "text")).
  set (it := default VUndefined (own props "isTyping")).
  set (absent := match it with VUndefined => true | _ => false end).
  assert (∀ st, st = s ∨ st = bound_to c u s →
          truthy u = true →
          bool_decide (clientUsernames s !! c = None) = true →
          st = s ∨ ∃ u0, truthy u0 = true ∧ clientUsernames s !! c = None
                         ∧ st = bound_to c u0 s) as Hfin.
  { intros st [->| ->] Hu Hnew%bool_decide_eq_true; [by left|right; eauto]. }
  unfold template.
  destruct (is_string ty "chat-message"); [|destruct (is_string ty "typing")].
  - destruct (truthy u) eqn:Hu, (truthy tx); cbn;
      try (intros [= <- <- <-]; by auto).
    destruct (bool_decide (clientUsernames s !! c = None)) eqn:Hnew,
      (converts u) eqn:Hcu, (converts tx); cbn;
      rewrite ?announce_run, ?announce_throws by done; cbn;
      rewrite ?Hcu; cbn; rewrite ?broadcast_run; cbn;
      try destruct (send_throws net c _);
      intros [= <- <- <-]; by auto.
  - destruct (truthy u) eqn:Hu, absent; cbn;
      try (intros [= <- <- <-]; by auto).
    destruct (bool_decide (clientUsernames s !! c = None)) eqn:Hnew,
      (converts u) eqn:Hcu, (converts it); cbn;
      rewrite ?announce_run, ?announce_throws by done; cbn;
      rewrite ?Hcu; cbn; rewrite ?broadcastExcept_run; cbn;
      try destruct (send_throws net c _);
      intros [= <- <- <-]; by auto.
  - cbn. intros [= <- <- <-]; by auto.
Qed.

Lemma on_close_registry net c s r s' t :
  on_close net c s = (r, s', t) → s' = unregistered c s.
Proof.
  rewrite on_close_run. cbn.
  destruct (truthy (identity c s)), (converts (identity c s));
    by intros [= <- <- <-].
Qed.

Lemma on_error_registry net c s r s' t :
  on_error net c s = (r, s', t) → s' = unregistered c s.
Proof.
  rewrite on_error_run. cbn.
  destruct (truthy (identity c s)), (converts (identity c s));
    by intros [= <- <- <-].
Qed.

(** ** The invariant holds in every reachable state *)

Lemma elem_of_set_add c x l : x ∈ set_add c l ↔ x = c ∨ x ∈ l.
Proof.
  unfold set_add. case_bool_decide as Hc.
  - split; [by right|]. by intros [->|].
  - rewrite elem_of_app, list_elem_of_singleton. tauto.
Qed.

Lemma NoDup_set_add c l : NoDup l → NoDup (set_add c l).
Proof.
  intros Hl. unfold set_add. case_bool_decide; [done|].
  apply NoDup_app. split_and!; [done| |apply NoDup_singleton].
  intros x Hx Hxc. apply list_elem_of_singleton in Hxc as ->. done.
Qed.

Lemma elem_of_set_delete c x l : x ∈ set_delete c l ↔ x ≠ c ∧ x ∈ l.
Proof. unfold set_delete. by rewrite list_elem_of_filter. Qed.

Lemma NoDup_set_delete c l : NoDup l → NoDup (set_delete c l).
Proof. apply NoDup_filter. Qed.

Lemma consistent_initial : consistent initial.
Proof.
  split; cbn.
  - apply NoDup_nil_2.
  - intros c [u Hu]. by rewrite lookup_empty in Hu.
  - intros c u Hu. by rewrite lookup_empty in Hu.
Qed.

Lemma consistent_unregistered c s :
  consistent s → consistent (unregistered c s).
Proof.
  intros [Hnd Hlive Htr]. split; cbn.
  - by apply NoDup_set_delete.
  - intros x [u Hu]. apply elem_of_set_delete.
    destruct (decide (x = c)) as [->|Hne].
    + by rewrite lookup_delete_eq in Hu.
    + rewrite lookup_delete_ne in Hu by done. eauto.
  - intros x u Hu. destruct (decide (x = c)) as [->|Hne].
    + by rewrite lookup_delete_eq in Hu.
    + rewrite lookup_delete_ne in Hu by done. eauto.
Qed.

Lemma consistent_bound_to c u s :
  consistent s → c ∈ connectedClients s → truthy u = true →
  consistent (bound_to c u s).
Proof.
  intros [Hnd Hlive Htr] Hc Hu. split; cbn.
  - done.
  - intros x [v Hv]. destruct (decide (x = c)) as [->|Hne]; [done|].
    rewrite lookup_insert_ne in Hv by done. eauto.
  - intros x v Hv. destruct (decide (x = c)) as [->|Hne].
    + rewrite lookup_insert_eq in Hv. by injection Hv as <-.
    + rewrite lookup_insert_ne in Hv by done. eauto.
Qed.

Lemma consistent_step net e s r s' t :
  consistent s → enabled s e = true → handle net e s = (r, s', t) →
  consistent s'.
Proof.
  intros Hs Hen Hrun. destruct e as [c|c data|c|c]; cbn in *.
  - apply on_connection_registry in Hrun as [_ ->].
    destruct Hs as [Hnd Hlive Htr]. split; cbn.
    + by apply NoDup_set_add.
    + intros x Hx. apply elem_of_set_add. eauto.
    + done.
  - apply bool_decide_eq_true in Hen.
    apply on_message_registry in Hrun as [_ [->|(u & Hu & _ & ->)]];
      [done|]. by apply consistent_bound_to.
  - apply on_close_registry in Hrun as ->. by apply consistent_unregistered.
  - apply on_error_registry in Hrun as ->. by apply consistent_unregistered.
Qed.

Lemma reachable_consistent s : reachable s → consistent s.
Proof.
  induction 1 as [|s net e s' t _ IH Hen Hrun];
    [apply consistent_initial|by eapply consistent_step].
Qed.

Lemma run_reachable script s s' t :
  reachable s → run script s = Some (s', t) → reachable s'.
Proof.
  revert s t. induction script as [|[net e] rest IH]; intros s t Hs; cbn.
  { by intros [= <- _]. }
  destruct (enabled s e) eqn:Hen; [|done].
  destruct (handle net e s) as [[[[]|] s1] t1] eqn:Hrun; [|done].
  destruct (run rest s1) as [[s2 t2]|] eqn:Hrest; [|done].
  intros [= <- _]. eapply IH; [|done]. by eapply reachable_step.
Qed.

Lemma bound_sessions_length s :
  consistent s → length (bound_sessions s) = size (clientUsernames s).
Proof.
  intros [Hnd Hlive _]. rewrite <-size_dom. unfold size, set_size. cbn.
  apply Permutation_length, NoDup_Permutation.
  - by apply NoDup_filter.
  - apply NoDup_elements.
  - intros c. unfold bound_sessions.
    rewrite list_elem_of_filter, elem_of_elements, elem_of_dom.
    split; [by intros [? _]|]. intros Hc. split; [done|by apply Hlive].
Qed.

(** The sample registry is what three connections and one chat
    message lead to. *)
Lemma alice_and_two_lurkers_reachable : reachable alice_and_two_lurkers.
Proof.
  apply (run_reachable
           [(calm, Connection 0); (calm, Connection 1);
            (calm, Connection 2);
            (calm, Message 0 (JSONText (chat_message (VStr "Alice")
                                          (VStr "hi"))))]
           initial alice_and_two_lurkers
           (snd (default (initial, [])
              (run [(calm, Connection 0); (calm, Connection 1);
                    (calm, Connection 2);
                    (calm, Message 0 (JSONText (chat_message (VStr "Alice")
                                          (VStr "hi"))))] initial))));
    [apply reachable_initial|vm_compute; reflexivity].
Qed.

Lemma nonempty_string_truthy v :
  nonempty_string v = true → truthy v = true ∧ converts v = true.
Proof. by destruct v. Qed.

Lemma valid_chat_fields message :
  valid_chat message = true →
  is_string (field message "type") "chat-message" = true
  ∧ nonempty_string (field message "username") = true
  ∧ nonempty_string (field message "text") = true.
Proof. unfold valid_chat. rewrite !andb_true_iff. tauto. Qed.

Lemma valid_typing_fields message :
  valid_typing message = true →
  is_string (field message "type") "typing" = true
  ∧ nonempty_string (field message "username") = true
  ∧ ∃ b, field message "isTyping" = VBool b.
Proof.
  unfold valid_typing. rewrite !andb_true_iff. intros [[? ?] Hb].
  split; [done|]. split; [done|].
  destruct (field message "isTyping") as [| |b| | | |];
    try discriminate Hb. by exists b.
Qed.

(** Reading a trace one effect at a time. *)
Lemma broadcasts_hit n m t :
  broadcasts (LogBroadcast n m :: t) = m :: broadcasts t.
Proof. reflexivity. Qed.

Lemma broadcasts_skip e t :
  (∀ n m, e ≠ LogBroadcast n m) → broadcasts (e :: t) = broadcasts t.
Proof. intros He. destruct e; try reflexivity. by destruct (He size m). Qed.

Lemma broadcastsExcept_hit m t :
  broadcastsExcept (LogBroadcastExcept m :: t) = m :: broadcastsExcept t.
Proof. reflexivity. Qed.

Lemma broadcastsExcept_skip e t :
  (∀ m, e ≠ LogBroadcastExcept m) →
  broadcastsExcept (e :: t) = broadcastsExcept t.
Proof. intros He. destruct e; try reflexivity. by destruct (He m). Qed.

Lemma sends_hit c m t : sends (Send c m :: t) = (c, m) :: sends t.
Proof. reflexivity. Qed.

Lemma sends_skip e t : (∀ c m, e ≠ Send c m) → sends (e :: t) = sends t.
Proof. intros He. destruct e; try reflexivity. by destruct (He c m). Qed.

Lemma relayed_skip e t :
  (∀ c v, e ≠ Send c (Relay v)) → relayed (e :: t) = relayed t.
Proof.
  intros He. destruct e as [c m| | | | |]; try reflexivity.
  destruct m; try reflexivity. by destruct (He c message).
Qed.

Arguments broadcasts : simpl never.
Arguments broadcastsExcept : simpl never.
Arguments sends : simpl never.
Arguments relayed : simpl never.

Create Rewrite HintDb trace.
#[global] Hint Rewrite broadcasts_app broadcastsExcept_app sends_app
  relayed_app broadcasts_hit broadcastsExcept_hit sends_hit
  broadcasts_fanout broadcastsExcept_fanout sends_fanout
  relayed_fanout_relay : trace.
#[global] Hint Rewrite broadcasts_skip broadcastsExcept_skip sends_skip
  relayed_skip relayed_fanout_other using done : trace.

Ltac read_trace :=
  unfold announce_trace, leave_trace, broadcast_trace;
  autorewrite with trace; try reflexivity.

Lemma broadcasts_announce_trace net u line s :
  broadcasts (announce_trace net u line s)
  = [System (render u " joined the chat");
     OnlineCount (size (clientUsernames s))].
Proof. read_trace. Qed.

Lemma broadcasts_leave_trace net u s :
  broadcasts (leave_trace net u s)
  = [System (render u " left the chat");
     OnlineCount (size (clientUsernames s))].
Proof. read_trace. Qed.

Lemma connectedClients_bound_to c u s :
  connectedClients (bound_to c u s) = connectedClients s.
Proof. reflexivity. Qed.

(** ** The claims *)

(** In every reachable state [getOnlineCount] returns the number of
    entries of [connectedClients] that have a name bound in
    [clientUsernames]: the two collections agree with each other. *)
Theorem online_count_is_bound_live_sessions s :
  reachable s →
  getOnlineCount s = (Normal (length (bound_sessions s)), s, []).
Proof.
  intros Hs. unfold getOnlineCount, gets.
  by rewrite bound_sessions_length by by apply reachable_consistent.
Qed.

(** Three sessions, one of them named: the count is 1. *)
Lemma online_count_with_two_lurkers :
  reachable alice_and_two_lurkers
  ∧ bound_sessions alice_and_two_lurkers = [0]
  ∧ getOnlineCount alice_and_two_lurkers
    = (Normal 1, alice_and_two_lurkers, []).
Proof.
  split; [apply alice_and_two_lurkers_reachable|].
  split; [vm_compute; reflexivity|].
  apply (online_count_is_bound_live_sessions alice_and_two_lurkers).
  apply alice_and_two_lurkers_reachable.
Defined.

(** A valid message from a session without a name binds the name
    and is announced, join first and count second, before it is
    relayed. *)
Lemma first_message_announced net c message s :
  clientUsernames s !! c = None →
  valid_chat message = true ∨ valid_typing message = true →
  ∃ t, on_message net c (JSONText message) s
       = (Normal tt, bound_to c (field message "username") s, t)
     ∧ broadcasts t ++ broadcastsExcept t
       = [System (render (field message "username") " joined the chat");
          OnlineCount (S (size (clientUsernames s)));
          Relay message].
Proof.
  intros Hnew [Hv|Hv].
  - apply valid_chat_fields in Hv as (Hty & Hu & Ht).
    apply nonempty_string_truthy in Hu as [Hu Hcu].
    apply nonempty_string_truthy in Ht as [Ht Hct].
    rewrite on_message_chat by done.
    rewrite bool_decide_eq_true_2 by done.
    eexists. split; [reflexivity|]. read_trace. cbn.
    by rewrite map_size_insert_None.
  - apply valid_typing_fields in Hv as (Hty & Hu & b & Hb).
    apply nonempty_string_truthy in Hu as [Hu Hcu].
    rewrite on_message_typing by (rewrite ?Hb; done).
    rewrite bool_decide_eq_true_2 by done.
    eexists. split; [reflexivity|]. read_trace. cbn.
    by rewrite map_size_insert_None.
Qed.

(** And a message that passes the check from a session that has a
    name is relayed and nothing else; the registry stays as it is. *)
Lemma later_message_relayed_only net c message s :
  is_Some (clientUsernames s !! c) →
  valid_chat message = true ∨ valid_typing message = true →
  ∃ t, on_message net c (JSONText message) s = (Normal tt, s, t)
     ∧ broadcasts t ++ broadcastsExcept t = [Relay message].
Proof.
  intros [u0 Hold] [Hv|Hv].
  - apply valid_chat_fields in Hv as (Hty & Hu & Ht).
    apply nonempty_string_truthy in Hu as [Hu Hcu].
    apply nonempty_string_truthy in Ht as [Ht Hct].
    rewrite on_message_chat by done.
    rewrite bool_decide_eq_false_2 by by rewrite Hold.
    eexists. split; [reflexivity|]. read_trace.
  - apply valid_typing_fields in Hv as (Hty & Hu & b & Hb).
    apply nonempty_string_truthy in Hu as [Hu Hcu].
    rewrite on_message_typing by (rewrite ?Hb; done).
    rewrite bool_decide_eq_false_2 by by rewrite Hold.
    eexists. split; [reflexivity|]. read_trace.
Qed.

(** C2, evaluated where the code departs from it.  Session 0 first
    sends a chat message whose [username] is the object
    [{"toString": 0}]: the check [!message.username] lets it through,
    [clientUsernames.set] binds it, and the template literal of the
    next line throws, so the [catch] answers with an error envelope
    and no join is announced.  Its next frame is an ordinary chat
    message, the first structurally valid one of the session: the
    session already has a name, and the message is relayed without
    any join or count broadcast. *)
Theorem join_unannounced_after_unprintable_name :
  let s0 := Registry [0] ∅ in
  let s1 := bound_to 0 unprintable s0 in
  let first := chat_message unprintable (VStr "hi") in
  let second := chat_message (VStr "Alice") (VStr "hi") in
  reachable s0
  ∧ valid_chat first = false
  ∧ (∃ t1, on_message calm 0 (JSONText first) s0 = (Normal tt, s1, t1)
         ∧ broadcasts t1 = []
         ∧ sends t1 = [(0, ErrorEnvelope "Failed to process message")])
  ∧ valid_chat second = true
  ∧ (∃ t2, on_message calm 0 (JSONText second) s1 = (Normal tt, s1, t2)
         ∧ broadcasts t2 = [Relay second]).
Proof.
  cbv zeta. split_and!.
  - apply (run_reachable [(calm, Connection 0)] initial _
             [Log "[WebSocket] New client connected" [];
              LogSize "[WebSocket] Total clients: " 1;
              Send 0 (System
                        (Lit "Welcome to the chat! You are now connected."));
              Send 0 (OnlineCount 0)]);
      [apply reachable_initial|vm_compute; reflexivity].
  - reflexivity.
  - eexists. split_and!; vm_compute; reflexivity.
  - reflexivity.
  - eexists. split_and!; vm_compute; reflexivity.
Qed.

(** A run is the triple of its three components. *)
Lemma surjective_pairing_3 {A B C} (p : A * B * C) : p = (p.1.1, p.1.2, p.2).
Proof. by destruct p as [[? ?] ?]. Defined.

(** C3: a valid chat message is handed to [send] once for every
    registered session whose socket is open, the sender included; a
    valid typing message once for every registered session whose
    socket is open other than the sender; a session whose socket is
    not open gets nothing, and the handler returns normally. *)
Theorem relay_recipients net c message s r s' t :
  on_message net c (JSONText message) s = (r, s', t) →
  (valid_chat message = true →
     r = Normal tt
     ∧ relayed t
       = map (λ x, (x, message))
           (filter (λ x, readyState net x = OPEN) (connectedClients s))
     ∧ (c ∈ connectedClients s → readyState net c = OPEN →
        (c, message) ∈ relayed t))
  ∧ (valid_typing message = true →
     r = Normal tt
     ∧ relayed t
       = map (λ x, (x, message))
           (filter (λ x, x ≠ c ∧ readyState net x = OPEN)
              (connectedClients s))
     ∧ (c, message) ∉ relayed t).
Proof.
  intros Hrun. split; intros Hv.
  - apply valid_chat_fields in Hv as (Hty & Hu & Ht).
    apply nonempty_string_truthy in Hu as [Hu Hcu].
    apply nonempty_string_truthy in Ht as [Ht Hct].
    rewrite on_message_chat in Hrun by done. cbv zeta in Hrun.
    injection Hrun as <- <- <-.
    assert (relayed
              (Log "[WebSocket] Received raw data:" []
               :: Log "[WebSocket] Parsed message:" [message]
               :: (if bool_decide (clientUsernames s !! c = None)
                   then announce_trace net (field message "username")
                          "[WebSocket] User joined: "
                          (if bool_decide (clientUsernames s !! c = None)
                           then bound_to c (field message "username") s
                           else s)
                   else [])
               ++ Log "[WebSocket] "
                    [field message "username"; field message "text"]
               :: broadcast_trace net (Relay message)
                    (if bool_decide (clientUsernames s !! c = None)
                     then bound_to c (field message "username") s
                     else s))
            = map (λ x, (x, message))
                (filter (λ x, readyState net x = OPEN) (connectedClients s)))
      as ->.
    { destruct (bool_decide _); read_trace. }
    split_and!; [done..|].
    intros Hc Hopen. apply list_elem_of_fmap. exists c. split; [done|].
    by apply list_elem_of_filter.
  - apply valid_typing_fields in Hv as (Hty & Hu & b & Hb).
    apply nonempty_string_truthy in Hu as [Hu Hcu].
    rewrite on_message_typing in Hrun by (rewrite ?Hb; done).
    cbv zeta in Hrun. injection Hrun as <- <- <-.
    assert (∀ l,
      relayed
        (Log "[WebSocket] Received raw data:" []
         :: Log "[WebSocket] Parsed message:" [message]
         :: (if bool_decide (clientUsernames s !! c = None)
             then announce_trace net (field message "username")
                    "[WebSocket] User registered via typing: "
                    (if bool_decide (clientUsernames s !! c = None)
                     then bound_to c (field message "username") s
                     else s)
             else [])
         ++ Log "[WebSocket] is typing"
              [field message "username"; field message "isTyping"]
         :: LogBroadcastExcept (Relay message)
         :: fanout net (Relay message) l)
      = map (λ x, (x, message)) l) as ->.
    { intros l. destruct (bool_decide _); read_trace. }
    assert (connectedClients
              (if bool_decide (clientUsernames s !! c = None)
               then bound_to c (field message "username") s else s)
            = connectedClients s) as -> by by destruct (bool_decide _).
    split_and!; [done..|].
    intros (x & [= <-] & Hx)%list_elem_of_fmap.
    apply list_elem_of_filter in Hx as [[Hne _] _]. done.
Qed.

(** Session 2 writes while socket 1 is closing and sends to socket 0
    throw: its chat message goes to 0 and to itself, its typing
    message to 0 only. *)
Lemma relay_recipients_on_a_rough_network :
  relayed (on_message rough 2
             (JSONText (chat_message (VStr "Cy") (VStr "hi")))
             alice_and_two_lurkers).2
  = [(0, chat_message (VStr "Cy") (VStr "hi"));
     (2, chat_message (VStr "Cy") (VStr "hi"))]
  ∧ relayed (on_message rough 2
               (JSONText (typing_message (VStr "Cy") (VBool true)))
               alice_and_two_lurkers).2
    = [(0, typing_message (VStr "Cy") (VBool true))].
Proof.
  split.
  - destruct (relay_recipients rough 2
                (chat_message (VStr "Cy") (VStr "hi"))
                alice_and_two_lurkers _ _ _ (surjective_pairing_3 _))
      as [Hchat _].
    destruct (Hchat eq_refl) as (_ & Hto & _).
    rewrite Hto. vm_compute. reflexivity.
  - destruct (relay_recipients rough 2
                (typing_message (VStr "Cy") (VBool true))
                alice_and_two_lurkers _ _ _ (surjective_pairing_3 _))
      as [_ Htyping].
    destruct (Htyping eq_refl) as (_ & Hto & _).
    rewrite Hto. vm_compute. reflexivity.
Defined.

(** Both lifecycle listeners remove the session; when its name
    converts to a string the leave message and the count are
    broadcast, in this order. *)
Lemma departure_announced net c s u (lifecycle : ws → event) :
  lifecycle = Close ∨ lifecycle = Error →
  clientUsernames s !! c = Some u → truthy u = true → converts u = true →
  ∃ t, handle net (lifecycle c) s = (Normal tt, unregistered c s, t)
     ∧ broadcasts t
       = [System (render u " left the chat");
          OnlineCount (size (delete c (clientUsernames s)))]
     ∧ broadcastsExcept t = [].
Proof.
  intros Hl Hu Htr Hcv.
  assert (identity c s = u) as Hid by (unfold identity; by rewrite Hu).
  destruct Hl as [-> | ->]; cbn [handle];
    [rewrite on_close_run|rewrite on_error_run];
    cbv zeta; rewrite Hid, Htr, Hcv;
    eexists; (split; [reflexivity|]); split; read_trace.
Qed.

(** A session that never got a name leaves without a word. *)
Lemma departure_of_lurker_silent net c s (lifecycle : ws → event) :
  lifecycle = Close ∨ lifecycle = Error →
  clientUsernames s !! c = None →
  ∃ t, handle net (lifecycle c) s = (Normal tt, unregistered c s, t)
     ∧ sends t = [] ∧ broadcasts t = [] ∧ broadcastsExcept t = [].
Proof.
  intros Hl Hu.
  assert (identity c s = VUndefined) as Hid
    by (unfold identity; by rewrite Hu).
  destruct Hl as [-> | ->]; cbn [handle];
    [rewrite on_close_run|rewrite on_error_run];
    cbv zeta; rewrite Hid; cbn [truthy];
    eexists; (split; [reflexivity|]); split_and!; reflexivity.
Qed.

(** C4, evaluated where the code departs from it.  Session 0 is
    registered under the name [{"toString": 0}], which its first
    chat message carried as [username].  On its [close],
    and likewise on its [error], the listener removes it from both
    collections and then throws while building the leave text:
    nothing is broadcast, and the exception leaves the listener. *)
Theorem departure_unannounced_for_unprintable_name :
  let s := Registry [0; 1] {[ 0 := unprintable ]} in
  reachable s
  ∧ clientUsernames s !! 0 = Some unprintable
  ∧ (∃ t, on_close calm 0 s = (Throw TypeError, Registry [1] ∅, t)
        ∧ broadcasts t = [] ∧ sends t = [])
  ∧ (∃ t, on_error calm 0 s = (Throw TypeError, Registry [1] ∅, t)
        ∧ broadcasts t = [] ∧ sends t = []).
Proof.
  cbv zeta. split_and!.
  - apply (run_reachable
             [(calm, Connection 0); (calm, Connection 1);
              (calm, Message 0
                 (JSONText (chat_message unprintable (VStr "hi"))))]
             initial (Registry [0; 1] {[ 0 := unprintable ]})
             (snd (default (initial, [])
                (run [(calm, Connection 0); (calm, Connection 1);
                      (calm, Message 0
                         (JSONText (chat_message unprintable (VStr "hi"))))]
                   initial))));
      [apply reachable_initial|vm_compute; reflexivity].
  - reflexivity.
  - eexists. split_and!; vm_compute; reflexivity.
  - eexists. split_and!; vm_compute; reflexivity.
Qed.

(** A frame that is not JSON is answered with one error envelope,
    text "Failed to process message", sent to its sender and to nobody
    else; nothing is broadcast and the registry is as before. *)
Theorem malformed_frame_answered net c raw s :
  ∃ t, on_message net c (NotJSON raw) s = (Normal tt, s, t)
     ∧ sends t = [(c, ErrorEnvelope "Failed to process message")]
     ∧ broadcasts t = []
     ∧ broadcastsExcept t = [].
Proof.
  rewrite on_message_not_json. eexists. split; [reflexivity|].
  destruct (send_throws net c _); split_and!; reflexivity.
Qed.

(** C6: a chat message whose [username] or [text] is missing or the
    empty string is dropped: the sender gets nothing, nothing is
    broadcast, and the registry is as before (no name is bound). *)
Theorem incomplete_chat_dropped net c message s :
  is_string (field message "type") "chat-message" = true →
  empty_or_missing (field message "username") = true
  ∨ empty_or_missing (field message "text") = true →
  ∃ t, on_message net c (JSONText message) s = (Normal tt, s, t)
     ∧ sends t = []
     ∧ broadcasts t = []
     ∧ broadcastsExcept t = [].
Proof.
  intros Hty Hbad.
  assert (∀ v, empty_or_missing v = true → truthy v = false) as Hfalsy.
  { intros [| | | |str| |]; try done. cbn. by intros ->. }
  rewrite on_message_chat_rejected by (destruct Hbad; auto).
  eexists. split; [reflexivity|]. split_and!; reflexivity.
Qed.

(** A chat message with an empty text, from a lurker. *)
Lemma chat_without_text_dropped :
  ∃ t, on_message calm 1
         (JSONText (chat_message (VStr "Bob") (VStr "")))
         alice_and_two_lurkers
       = (Normal tt, alice_and_two_lurkers, t)
     ∧ sends t = []
     ∧ broadcasts t = []
     ∧ broadcastsExcept t = [].
Proof.
  apply (incomplete_chat_dropped calm 1
           (chat_message (VStr "Bob") (VStr "")) alice_and_two_lurkers).
  - reflexivity.
  - right. reflexivity.
Defined.

(** C7 as stated fails: session 0 is known as Alice and sends a valid
    chat message signed Bob; afterwards its bound name is still Alice,
    not the name carried by the message. *)
Lemma rename_is_not_stored :
  let message := chat_message (VStr "Bob") (VStr "hi") in
  reachable alice_and_two_lurkers
  ∧ clientUsernames alice_and_two_lurkers !! 0 = Some (VStr "Alice")
  ∧ valid_chat message = true
  ∧ ∃ s' t,
      on_message calm 0 (JSONText message) alice_and_two_lurkers
      = (Normal tt, s', t)
      ∧ clientUsernames s' !! 0 = Some (VStr "Alice")
      ∧ clientUsernames s' !! 0 ≠ Some (field message "username").
Proof.
  cbv zeta. split_and!;
    [apply alice_and_two_lurkers_reachable|reflexivity..|].
  exists alice_and_two_lurkers. eexists.
  split_and!; [vm_compute; reflexivity|reflexivity|].
  vm_compute. discriminate.
Qed.

(** C7, amended: for a session that has a name, a valid chat or
    typing message leaves the registry as it is, so the session keeps
    the name it had, whatever name the message carries; the only
    fan-out is the relay of the message itself: no join message and no
    count. *)
Theorem bound_session_keeps_its_name net c message s u :
  clientUsernames s !! c = Some u →
  valid_chat message = true ∨ valid_typing message = true →
  ∃ s' t, on_message net c (JSONText message) s = (Normal tt, s', t)
     ∧ s' = s
     ∧ clientUsernames s' !! c = Some u
     ∧ broadcasts t ++ broadcastsExcept t = [Relay message].
Proof.
  intros Hu Hv.
  destruct (later_message_relayed_only net c message s) as (t & Hrun & Ht);
    [by rewrite Hu|done|].
  by exists s, t.
Qed.

(** Alice types under the name Bob and stays Alice. *)
Lemma alice_stays_alice :
  ∃ s' t,
    on_message calm 0
      (JSONText (typing_message (VStr "Bob") (VBool true)))
      alice_and_two_lurkers
    = (Normal tt, s', t)
    ∧ s' = alice_and_two_lurkers
    ∧ clientUsernames s' !! 0 = Some (VStr "Alice")
    ∧ broadcasts t ++ broadcastsExcept t
      = [Relay (typing_message (VStr "Bob") (VBool true))].
Proof.
  apply (bound_session_keeps_its_name calm 0
           (typing_message (VStr "Bob") (VBool true))
           alice_and_two_lurkers (VStr "Alice")).
  - reflexivity.
  - right. reflexivity.
Defined.

(** C8 as stated fails: a typing message whose [isTyping] is the
    string "yes" is not dropped.  Sent by session 1, it binds the
    name, is announced, and is forwarded to sessions 0 and 2. *)
Lemma typing_with_text_flag_accepted :
  let message := typing_message (VStr "Bob") (VStr "yes") in
  field message "isTyping" = VStr "yes"
  ∧ valid_typing message = false
  ∧ ∃ s' t,
      on_message calm 1 (JSONText message) alice_and_two_lurkers
      = (Normal tt, s', t)
      ∧ clientUsernames alice_and_two_lurkers !! 1 = None
      ∧ clientUsernames s' !! 1 = Some (VStr "Bob")
      ∧ broadcasts t = [System (Lit "Bob joined the chat"); OnlineCount 2]
      ∧ relayed t = [(0, message); (2, message)].
Proof.
  cbv zeta. split_and!; [reflexivity..|].
  do 2 eexists. split_and!; vm_compute; reflexivity.
Qed.

(** C8, amended: a typing message is dropped, with no answer, no
    broadcast and no change of the registry, when its [username] is
    falsy (missing or empty) or its [isTyping] is missing; the type
    of a present [isTyping] is not looked at: with a non-empty string
    [username] and an [isTyping] that is present and converts to a
    string (a boolean, a number, a string, [null]), the message is
    forwarded to every other open session. *)
Theorem typing_needs_name_and_flag_of_any_type net c message s :
  is_string (field message "type") "typing" = true →
  (truthy (field message "username") = false
   ∨ field message "isTyping" = VUndefined →
   ∃ t, on_message net c (JSONText message) s = (Normal tt, s, t)
      ∧ sends t = [] ∧ broadcasts t = [] ∧ broadcastsExcept t = [])
  ∧ (nonempty_string (field message "username") = true →
     field message "isTyping" ≠ VUndefined →
     converts (field message "isTyping") = true →
     ∃ s' t, on_message net c (JSONText message) s = (Normal tt, s', t)
        ∧ relayed t
          = map (λ x, (x, message))
              (filter (λ x, x ≠ c ∧ readyState net x = OPEN)
                 (connectedClients s))).
Proof.
  intros Hty. split.
  - intros Hbad. rewrite on_message_typing_rejected by done.
    eexists. split; [reflexivity|]. split_and!; reflexivity.
  - intros Hu Hi Hci. apply nonempty_string_truthy in Hu as [Hu Hcu].
    rewrite on_message_typing by done. cbv zeta.
    do 2 eexists. split; [reflexivity|].
    destruct (bool_decide _); read_trace.
Qed.

(** A typing message without [isTyping] is dropped; one whose
    [isTyping] is the string "yes" is forwarded. *)
Lemma typing_flag_missing_or_textual :
  (∃ t, on_message calm 1
          (JSONText (VObj [("type", VStr "typing");
                           ("username", VStr "Bob")]))
          alice_and_two_lurkers
        = (Normal tt, alice_and_two_lurkers, t)
      ∧ sends t = [] ∧ broadcasts t = [] ∧ broadcastsExcept t = [])
  ∧ (∃ s' t, on_message calm 1
               (JSONText (typing_message (VStr "Bob") (VStr "yes")))
               alice_and_two_lurkers
             = (Normal tt, s', t)
      ∧ relayed t
        = map (λ x, (x, typing_message (VStr "Bob") (VStr "yes")))
            (filter (λ x, x ≠ 1 ∧ readyState calm x = OPEN)
               (connectedClients alice_and_two_lurkers))).
Proof.
  split.
  - apply (typing_needs_name_and_flag_of_any_type calm 1
             (VObj [("type", VStr "typing"); ("username", VStr "Bob")])
             alice_and_two_lurkers eq_refl).
    right. reflexivity.
  - apply (typing_needs_name_and_flag_of_any_type calm 1
             (typing_message (VStr "Bob") (VStr "yes"))
             alice_and_two_lurkers eq_refl).
    + reflexivity.
    + discriminate.
    + reflexivity.
Defined.

(** Without the [try]/[catch] of the loop body a [send] that throws
    would end the loop: the exception leaves [forEach]. *)
Example forEach_stops_at_throw :
  forEach [0; 2] (λ client, ws_send rough client (OnlineCount 1))
    alice_and_two_lurkers
  = (Throw SendFailure, alice_and_two_lurkers, [Send 0 (OnlineCount 1)]).
Proof. reflexivity. Qed.

(** C9: whatever [send] calls throw, [broadcast] and [broadcastExcept]
    return normally, have called [send] once on every registered open
    session (other than the excluded one), and leave the registry as
    it was. *)
Theorem fanout_absorbs_send_failures net m excludeClient s :
  (∃ t, broadcast net m s = (Normal tt, s, t)
      ∧ sends t
        = map (λ c, (c, m))
            (filter (λ c, readyState net c = OPEN) (connectedClients s)))
  ∧ (∃ t, broadcastExcept net m excludeClient s = (Normal tt, s, t)
        ∧ sends t
          = map (λ c, (c, m))
              (filter (λ c, c ≠ excludeClient ∧ readyState net c = OPEN)
                 (connectedClients s))).
Proof.
  split.
  - rewrite broadcast_run. eexists. split; [reflexivity|]. read_trace.
  - rewrite broadcastExcept_run. eexists. split; [reflexivity|]. read_trace.
Qed.

(** On the rough network the [send] to session 0 throws; session 2,
    which comes later in the loop, is served all the same. *)
Example fanout_on_a_rough_network :
  broadcast rough (OnlineCount 1) alice_and_two_lurkers
  = (Normal tt, alice_and_two_lurkers,
     [LogBroadcast 3 (OnlineCount 1);
      Send 0 (OnlineCount 1);
      LogError "[WebSocket] Error sending to client:";
      Send 2 (OnlineCount 1)]).
Proof. reflexivity. Qed.

(** C10 as stated fails: after one connection and one chat message
    signed "a", the registry binds the one-character name "a". *)
Lemma one_letter_name_bound :
  let s := Registry [0] {[ 0 := VStr "a" ]} in
  reachable s
  ∧ clientUsernames s !! 0 = Some (VStr "a")
  ∧ display_name (VStr "a") = false.
Proof.
  cbv zeta. split_and!; [|reflexivity..].
  apply (run_reachable
           [(calm, Connection 0);
            (calm, Message 0 (JSONText (chat_message (VStr "a")
                                          (VStr "hi"))))]
           initial (Registry [0] {[ 0 := VStr "a" ]})
           (snd (default (initial, [])
              (run [(calm, Connection 0);
                    (calm, Message 0 (JSONText (chat_message (VStr "a")
                                                  (VStr "hi"))))]
                 initial))));
    [apply reachable_initial|vm_compute; reflexivity].
Qed.

(** C10, amended: in every reachable state, every name bound in the
    registry is truthy, in particular not the empty string, and
    belongs to a registered session; the server checks neither its
    length nor its white space. *)
Theorem bound_name_is_truthy s c u :
  reachable s →
  clientUsernames s !! c = Some u →
  truthy u = true ∧ u ≠ VStr "" ∧ c ∈ connectedClients s.
Proof.
  intros Hs Hu. apply reachable_consistent in Hs as [_ Hlive Htr].
  split_and!.
  - by eapply Htr.
  - intros ->. by apply Htr in Hu.
  - apply Hlive. by rewrite Hu.
Qed.

(** The name bound in the sample registry. *)
Lemma alice_is_truthy :
  truthy (VStr "Alice") = true
  ∧ VStr "Alice" ≠ VStr ""
  ∧ 0 ∈ connectedClients alice_and_two_lurkers.
Proof.
  apply (bound_name_is_truthy alice_and_two_lurkers 0 (VStr "Alice")).
  - apply alice_and_two_lurkers_reachable.
  - reflexivity.
Defined.

(** The scenario of three sessions: Alice's first message reaches all
    three as join text, count 1 and the message itself; a lurker then
    leaves without any broadcast and the count stays 1. *)
Example three_sessions_scenario :
  let hi := chat_message (VStr "Alice") (VStr "hi") in
  let connected := Registry [0; 1; 2] ∅ in
  fst <$> run [(calm, Connection 0); (calm, Connection 1);
               (calm, Connection 2)] initial
  = Some connected
  ∧ sends (on_message calm 0 (JSONText hi) connected).2
    = [(0, System (Lit "Alice joined the chat"));
       (1, System (Lit "Alice joined the chat"));
       (2, System (Lit "Alice joined the chat"));
       (0, OnlineCount 1); (1, OnlineCount 1); (2, OnlineCount 1);
       (0, Relay hi); (1, Relay hi); (2, Relay hi)]
  ∧ (on_message calm 0 (JSONText hi) connected).1.2 = alice_and_two_lurkers
  ∧ sends (on_close calm 1 alice_and_two_lurkers).2 = []
  ∧ getOnlineCount (on_close calm 1 alice_and_two_lurkers).1.2
    = (Normal 1, Registry [0; 2] {[ 0 := VStr "Alice" ]}, []).
Proof. cbv zeta. split_and!; vm_compute; reflexivity. Qed.

(** ** Further properties of the listeners *)

(** The connection listener in full. *)
Lemma on_connection_run net c s :
  on_connection net c s
  = (Normal tt,
     Registry (set_add c (connectedClients s)) (clientUsernames s),
     [Log "[WebSocket] New client connected" [];
      LogSize "[WebSocket] Total clients: " (length (connectedClients s) + 1);
      Send c (System (Lit "Welcome to the chat! You are now connected."))]
     ++ (if send_throws net c
              (System (Lit "Welcome to the chat! You are now connected."))
         then [LogError "[WebSocket] Error sending welcome message:"]
         else [])
     ++ Send c (OnlineCount (size (clientUsernames s)))
     :: (if send_throws net c (OnlineCount (size (clientUsernames s)))
         then [LogError "[WebSocket] Error sending online count:"]
         else [])).
Proof.
  unfold on_connection, try_catch, ws_send, getOnlineCount, bind, emit,
    gets, modify, ret, throw. cbn.
  destruct (send_throws net c (System _)),
    (send_throws net c (OnlineCount _)); reflexivity.
Qed.

(** X1: a new connection is registered without a name and is written
    to twice, the welcome text and then the current count (in which it
    does not count itself); nobody else is written to, nothing is
    broadcast, and a [send] that throws is absorbed. *)
Theorem newcomer_is_greeted_alone net c s :
  ∃ t, on_connection net c s
       = (Normal tt,
          Registry (set_add c (connectedClients s)) (clientUsernames s), t)
     ∧ sends t
       = [(c, System (Lit "Welcome to the chat! You are now connected."));
          (c, OnlineCount (size (clientUsernames s)))]
     ∧ broadcasts t = []
     ∧ broadcastsExcept t = [].
Proof.
  rewrite on_connection_run. eexists. split; [reflexivity|].
  destruct (send_throws net c (System _)),
    (send_throws net c (OnlineCount _)); split_and!; reflexivity.
Qed.

(** X2: whatever the frame, the message listener returns normally,
    leaves the set of registered sessions as it is, leaves the name of
    every other session as it is, and leaves the sender's name as it
    is once the sender has one. *)
Theorem message_listener_is_contained net c data s :
  ∃ s' t, on_message net c data s = (Normal tt, s', t)
     ∧ connectedClients s' = connectedClients s
     ∧ (∀ c', c' ≠ c → clientUsernames s' !! c' = clientUsernames s !! c')
     ∧ (is_Some (clientUsernames s !! c) → s' = s).
Proof.
  destruct (on_message net c data s) as [[r s'] t] eqn:Hrun.
  destruct (on_message_registry _ _ _ _ _ _ _ Hrun)
    as [-> [->|(u & _ & Hnew & ->)]].
  - exists s, t. done.
  - exists (bound_to c u s), t. split_and!; [done..| |].
    + intros c' Hne. cbn. by rewrite lookup_insert_ne.
    + intros [v Hv]. congruence.
Qed.

(** X3: a JSON frame that is not [null] and whose [type] is neither
    "chat-message" nor "typing" (a number, a string, an array and an
    object without [type] among them) is logged and otherwise ignored:
    nothing is sent, nothing is broadcast, the registry is as before. *)
Theorem unknown_type_ignored net c message s :
  message ≠ VNull → message ≠ VUndefined →
  is_string (field message "type") "chat-message" = false →
  is_string (field message "type") "typing" = false →
  ∃ t, on_message net c (JSONText message) s = (Normal tt, s, t)
     ∧ sends t = [] ∧ broadcasts t = [] ∧ broadcastsExcept t = [].
Proof.
  intros Hnull Hundef Hchat Htyping.
  unfold on_message, dispatch, try_catch, bind, emit, gets, prop, ret. cbn.
  destruct message as [| | | | |xs|props]; try done; cbn in *;
    rewrite ?Hchat, ?Htyping; cbn;
    eexists; (split; [reflexivity|]); split_and!; reflexivity.
Qed.

(** A bare number and an object of another type. *)
Lemma number_and_ping_ignored :
  (∃ t, on_message calm 1 (JSONText (VNum (S754_zero false)))
          alice_and_two_lurkers
        = (Normal tt, alice_and_two_lurkers, t)
      ∧ sends t = [] ∧ broadcasts t = [] ∧ broadcastsExcept t = [])
  ∧ (∃ t, on_message calm 1
            (JSONText (VObj [("type", VStr "ping"); ("username", VStr "Bob")]))
            alice_and_two_lurkers
          = (Normal tt, alice_and_two_lurkers, t)
        ∧ sends t = [] ∧ broadcasts t = [] ∧ broadcastsExcept t = []).
Proof.
  split.
  - apply (unknown_type_ignored calm 1 (VNum (S754_zero false))
             alice_and_two_lurkers); [discriminate|discriminate|
                                      reflexivity|reflexivity].
  - apply (unknown_type_ignored calm 1
             (VObj [("type", VStr "ping"); ("username", VStr "Bob")])
             alice_and_two_lurkers); [discriminate|discriminate|
                                      reflexivity|reflexivity].
Defined.

Lemma set_delete_idemp c l : set_delete c (set_delete c l) = set_delete c l.
Proof.
  unfold set_delete. induction l as [|x l IH]; [done|].
  rewrite filter_cons. destruct (decide (x ≠ c)) as [Hx|Hx]; [|done].
  rewrite filter_cons, decide_True by done. by rewrite IH.
Qed.

Lemma unregistered_idemp c s :
  unregistered c (unregistered c s) = unregistered c s.
Proof.
  unfold unregistered. cbn [connectedClients clientUsernames].
  by rewrite set_delete_idemp, delete_delete_eq.
Qed.

Lemma identity_unregistered c s : identity c (unregistered c s) = VUndefined.
Proof. unfold identity, unregistered. cbn. by rewrite lookup_delete_eq. Qed.

(** X5: once [close] or [error] has removed a session, a further
    [close] or [error] for it (the library raises [close] after
    [error]) changes nothing and writes to nobody: a departure is
    announced at most once. *)
Theorem second_departure_is_silent net c s :
  (∃ t, on_close net c (unregistered c s) = (Normal tt, unregistered c s, t)
      ∧ sends t = [] ∧ broadcasts t = [] ∧ broadcastsExcept t = [])
  ∧ (∃ t, on_error net c (unregistered c s)
          = (Normal tt, unregistered c s, t)
        ∧ sends t = [] ∧ broadcasts t = [] ∧ broadcastsExcept t = []).
Proof.
  split; [rewrite on_close_run|rewrite on_error_run]; cbv zeta;
    rewrite identity_unregistered, unregistered_idemp; cbn [truthy];
    eexists; (split; [reflexivity|]); split_and!; reflexivity.
Qed.

(** X6: in a reachable state, when a session whose name is a string,
    a number, a boolean or an object without an own [toString] closes
    or errors, the listener returns normally; the leave text and then
    the new count, one less than before, are each handed once to every
    open session that remains registered, in registration order; the
    departing session is written to by neither. *)
Theorem departure_reaches_the_others net c s u (lifecycle : ws → event) :
  lifecycle = Close ∨ lifecycle = Error →
  reachable s →
  clientUsernames s !! c = Some u →
  converts_plainly u = true →
  let others := filter (λ x, readyState net x = OPEN)
                  (set_delete c (connectedClients s)) in
  ∃ t, handle net (lifecycle c) s = (Normal tt, unregistered c s, t)
     ∧ sends t
       = map (λ x, (x, System (render u " left the chat"))) others
         ++ map (λ x, (x, OnlineCount (size (clientUsernames s) - 1))) others
     ∧ c ∉ others.
Proof.
  intros Hl Hs Hu Hplain others.
  assert (converts u = true) as Hcv by (by destruct u).
  assert (identity c s = u) as Hid by (unfold identity; by rewrite Hu).
  assert (truthy u = true) as Htr
    by (eapply bound_truthy; [by apply reachable_consistent|done]).
  assert (size (clientUsernames (unregistered c s))
          = size (clientUsernames s) - 1) as Hsize.
  { cbn. rewrite map_size_delete_Some by (by rewrite Hu). lia. }
  assert (c ∉ others) as Hnot.
  { subst others. rewrite list_elem_of_filter, elem_of_set_delete.
    by intros [_ [? _]]. }
  destruct Hl as [-> | ->]; cbn [handle];
    [rewrite on_close_run|rewrite on_error_run];
    cbv zeta; rewrite Hid, Htr, Hcv;
    eexists; (split; [reflexivity|]); (split; [|done]);
    read_trace; by rewrite Hsize.
Qed.

(** Alice closes: the two lurkers are told, and told that nobody is
    left online. *)
Lemma alice_leaves :
  ∃ t, handle calm (Close 0) alice_and_two_lurkers
       = (Normal tt, unregistered 0 alice_and_two_lurkers, t)
     ∧ sends t
       = [(1, System (Lit "Alice left the chat"));
          (2, System (Lit "Alice left the chat"));
          (1, OnlineCount 0); (2, OnlineCount 0)]
     ∧ 0 ∉ [1; 2].
Proof.
  apply (departure_reaches_the_others calm 0 alice_and_two_lurkers
           (VStr "Alice") Close).
  - left. reflexivity.
  - apply alice_and_two_lurkers_reachable.
  - reflexivity.
  - reflexivity.
Defined.

(** X7: when a session without a name closes or errors, it leaves the
    set of registered sessions, every name stays bound as it was, the
    count is unchanged, and nothing is sent or broadcast. *)
Theorem lurker_leaves_unnoticed net c s (lifecycle : ws → event) :
  lifecycle = Close ∨ lifecycle = Error →
  clientUsernames s !! c = None →
  ∃ t, handle net (lifecycle c) s
       = (Normal tt,
          Registry (set_delete c (connectedClients s)) (clientUsernames s), t)
     ∧ sends t = [] ∧ broadcasts t = [] ∧ broadcastsExcept t = [].
Proof.
  intros Hl Hu.
  assert (identity c s = VUndefined) as Hid
    by (unfold identity; by rewrite Hu).
  assert (unregistered c s
          = Registry (set_delete c (connectedClients s)) (clientUsernames s))
    as Hreg by (unfold unregistered; by rewrite delete_id).
  destruct Hl as [-> | ->]; cbn [handle];
    [rewrite on_close_run|rewrite on_error_run];
    cbv zeta; rewrite Hid, Hreg; cbn [truthy];
    eexists; (split; [reflexivity|]); split_and!; reflexivity.
Qed.

(** Lurker 1 errors. *)
Lemma lurker_one_errors :
  ∃ t, handle rough (Error 1) alice_and_two_lurkers
       = (Normal tt, Registry [0; 2] {[ 0 := VStr "Alice" ]}, t)
     ∧ sends t = [] ∧ broadcasts t = [] ∧ broadcastsExcept t = [].
Proof.
  apply (lurker_leaves_unnoticed rough 1 alice_and_two_lurkers Error).
  - right. reflexivity.
  - reflexivity.
Defined.

(** X8: the first valid message of a session without a name binds the
    name; the join text and then the count, one more than before, are
    each handed once to every open registered session, the sender
    included, before the message itself is relayed: to the same
    sessions when it is a chat message, to all of them but the sender
    when it is a typing message. *)
Theorem newcomer_announced_to_all net c message s :
  clientUsernames s !! c = None →
  let everyone := filter (λ x, readyState net x = OPEN)
                    (connectedClients s) in
  let others := filter (λ x, x ≠ c ∧ readyState net x = OPEN)
                  (connectedClients s) in
  let announcement :=
    map (λ x, (x, System (render (field message "username")
                            " joined the chat"))) everyone
    ++ map (λ x, (x, OnlineCount (S (size (clientUsernames s))))) everyone in
  (valid_chat message = true →
   ∃ t, on_message net c (JSONText message) s
        = (Normal tt, bound_to c (field message "username") s, t)
      ∧ sends t = announcement ++ map (λ x, (x, Relay message)) everyone)
  ∧ (valid_typing message = true →
     ∃ t, on_message net c (JSONText message) s
          = (Normal tt, bound_to c (field message "username") s, t)
        ∧ sends t = announcement ++ map (λ x, (x, Relay message)) others).
Proof.
  intros Hnew everyone others announcement. split; intros Hv.
  - apply valid_chat_fields in Hv as (Hty & Hu & Ht).
    apply nonempty_string_truthy in Hu as [Hu Hcu].
    apply nonempty_string_truthy in Ht as [Ht Hct].
    rewrite on_message_chat by done.
    rewrite bool_decide_eq_true_2 by done.
    eexists. split; [reflexivity|]. subst announcement. read_trace.
    cbn [bound_to connectedClients clientUsernames].
    rewrite map_size_insert_None by done. reflexivity.
  - apply valid_typing_fields in Hv as (Hty & Hu & b & Hb).
    apply nonempty_string_truthy in Hu as [Hu Hcu].
    rewrite on_message_typing by (rewrite ?Hb; done).
    rewrite bool_decide_eq_true_2 by done.
    eexists. split; [reflexivity|]. subst announcement. read_trace.
    cbn [bound_to connectedClients clientUsernames].
    rewrite map_size_insert_None by done. reflexivity.
Qed.

(** Lurker 1 says "hi" as Bob; lurker 2 starts typing as Cy. *)
Lemma bob_and_cy_arrive :
  (∃ t, on_message calm 1 (JSONText (chat_message (VStr "Bob") (VStr "hi")))
          alice_and_two_lurkers
        = (Normal tt, bound_to 1 (VStr "Bob") alice_and_two_lurkers, t)
      ∧ sends t
        = [(0, System (Lit "Bob joined the chat"));
           (1, System (Lit "Bob joined the chat"));
           (2, System (Lit "Bob joined the chat"));
           (0, OnlineCount 2); (1, OnlineCount 2); (2, OnlineCount 2);
           (0, Relay (chat_message (VStr "Bob") (VStr "hi")));
           (1, Relay (chat_message (VStr "Bob") (VStr "hi")));
           (2, Relay (chat_message (VStr "Bob") (VStr "hi")))])
  ∧ (∃ t, on_message calm 2
            (JSONText (typing_message (VStr "Cy") (VBool true)))
            alice_and_two_lurkers
          = (Normal tt, bound_to 2 (VStr "Cy") alice_and_two_lurkers, t)
        ∧ sends t
          = [(0, System (Lit "Cy joined the chat"));
             (1, System (Lit "Cy joined the chat"));
             (2, System (Lit "Cy joined the chat"));
             (0, OnlineCount 2); (1, OnlineCount 2); (2, OnlineCount 2);
             (0, Relay (typing_message (VStr "Cy") (VBool true)));
             (1, Relay (typing_message (VStr "Cy") (VBool true)))]).
Proof.
  split.
  - apply (newcomer_announced_to_all calm 1
             (chat_message (VStr "Bob") (VStr "hi")) alice_and_two_lurkers
             eq_refl). reflexivity.
  - apply (newcomer_announced_to_all calm 2
             (typing_message (VStr "Cy") (VBool true)) alice_and_two_lurkers
             eq_refl). reflexivity.
Defined.

Lemma sends_caught net c :
  sends (caught net c) = [(c, ErrorEnvelope "Failed to process message")].
Proof. unfold caught. destruct (send_throws net c _); read_trace. Qed.

Lemma broadcasts_caught net c : broadcasts (caught net c) = [].
Proof. unfold caught. destruct (send_throws net c _); read_trace. Qed.

Lemma broadcastsExcept_caught net c : broadcastsExcept (caught net c) = [].
Proof. unfold caught. destruct (send_throws net c _); read_trace. Qed.

Lemma relayed_caught net c : relayed (caught net c) = [].
Proof. unfold caught. destruct (send_throws net c _); read_trace. Qed.

#[global] Hint Rewrite sends_caught broadcasts_caught broadcastsExcept_caught
  relayed_caught : trace.

Lemma passes_chat_check_fields message :
  passes_chat_check message = true →
  is_string (field message "type") "chat-message" = true
  ∧ truthy (field message "username") = true
  ∧ truthy (field message "text") = true.
Proof. unfold passes_chat_check. rewrite !andb_true_iff. tauto. Qed.

Lemma passes_typing_check_fields message :
  passes_typing_check message = true →
  is_string (field message "type") "typing" = true
  ∧ truthy (field message "username") = true
  ∧ field message "isTyping" ≠ VUndefined.
Proof.
  unfold passes_typing_check. rewrite !andb_true_iff. intros [[? ?] Hi].
  split_and!; [done..|]. intros Hu. by rewrite Hu in Hi.
Qed.

Lemma typing_is_not_chat message :
  is_string (field message "type") "typing" = true →
  is_string (field message "type") "chat-message" = false.
Proof.
  destruct (field message "type"); try done. cbn.
  by intros ->%String.eqb_eq.
Qed.

(** [JSON.parse] gave [null]: reading [message.type] throws. *)
Lemma on_message_null net c message s :
  message = VNull ∨ message = VUndefined →
  on_message net c (JSONText message) s
  = (Normal tt, s,
     Log "[WebSocket] Received raw data:" []
     :: Log "[WebSocket] Parsed message:" [message] :: caught net c).
Proof.
  unfold on_message, dispatch, try_catch, bind, emit, gets, prop, ret,
    ws_send, throw, caught.
  intros [-> | ->]; cbn; destruct (send_throws net c _); reflexivity.
Qed.

(** The last [else] of the listener. *)
Lemma on_message_unknown net c message s :
  message ≠ VNull → message ≠ VUndefined →
  is_string (field message "type") "chat-message" = false →
  is_string (field message "type") "typing" = false →
  on_message net c (JSONText message) s
  = (Normal tt, s,
     [Log "[WebSocket] Received raw data:" [];
      Log "[WebSocket] Parsed message:" [message];
      Log "[WebSocket] Unknown message type:" [field message "type"]]).
Proof.
  intros Hnull Hundef Hchat Htyping.
  unfold on_message, dispatch, try_catch, bind, emit, gets, prop, ret. cbn.
  destruct message as [| | | | |xs|props]; try done; cbn in *;
    rewrite ?Hchat, ?Htyping; reflexivity.
Qed.

(** The name passes the check and is bound, and the template literal
    of the next line throws. *)
Lemma on_message_name_throws net c message s :
  passes_chat_check message = true ∨ passes_typing_check message = true →
  converts (field message "username") = false →
  on_message net c (JSONText message) s
  = (Normal tt,
     (if bool_decide (clientUsernames s !! c = None)
      then bound_to c (field message "username") s else s),
     Log "[WebSocket] Received raw data:" []
     :: Log "[WebSocket] Parsed message:" [message] :: caught net c).
Proof.
  intros Hpass Hcu.
  destruct message as [| | | | |xs|props];
    try (by destruct Hpass as [?|?]).
  unfold on_message, dispatch, try_catch, bind, emit, gets, prop, ret,
    ws_send, throw, template, caught. cbn.
  destruct Hpass as [Hp|Hp].
  - apply passes_chat_check_fields in Hp as (Hty & Hu & Ht).
    cbn [field] in *. rewrite Hty, Hu, Ht. cbn. rewrite andb_true_r.
    destruct (bool_decide (clientUsernames s !! c = None)); cbn;
      rewrite ?announce_throws by done; rewrite ?Hcu; cbn;
      destruct (send_throws net c _); reflexivity.
  - apply passes_typing_check_fields in Hp as (Hty & Hu & Hi).
    pose proof (typing_is_not_chat _ Hty) as Hnc.
    cbn [field] in *. rewrite Hnc, Hty, Hu.
    assert (match default VUndefined (own props "isTyping") with
            | VUndefined => true | _ => false end = false) as ->.
    { by destruct (default VUndefined (own props "isTyping")). }
    cbn. rewrite andb_true_r.
    destruct (bool_decide (clientUsernames s !! c = None)); cbn;
      rewrite ?announce_throws by done; rewrite ?Hcu; cbn;
      destruct (send_throws net c _); reflexivity.
Qed.

(** The name converts, a first message is announced, and then the
    template literal of the log line throws on the text of a chat
    message or on the flag of a typing message. *)
Lemma on_message_body_throws net c message s :
  (passes_chat_check message = true
   ∧ converts (field message "text") = false)
  ∨ (passes_typing_check message = true
     ∧ converts (field message "isTyping") = false) →
  converts (field message "username") = true →
  let new := bool_decide (clientUsernames s !! c = None) in
  let s' := if new then bound_to c (field message "username") s else s in
  on_message net c (JSONText message) s
  = (Normal tt, s',
     Log "[WebSocket] Received raw data:" []
     :: Log "[WebSocket] Parsed message:" [message]
     :: (if new
         then announce_trace net (field message "username")
                (if is_string (field message "type") "chat-message"
                 then "[WebSocket] User joined: "
                 else "[WebSocket] User registered via typing: ") s'
         else [])
     ++ caught net c).
Proof.
  intros Hpass Hcu new s'.
  destruct message as [| | | | |xs|props];
    try (by destruct Hpass as [[? _]|[? _]]).
  unfold on_message, dispatch, try_catch, bind, emit, gets, prop, ret,
    ws_send, throw, template, caught. cbn.
  destruct Hpass as [[Hp Hcb]|[Hp Hcb]].
  - apply passes_chat_check_fields in Hp as (Hty & Hu & Ht).
    cbn [field] in *. rewrite Hty, Hu, Ht. cbn. rewrite andb_true_r.
    fold new. subst s'. destruct new; cbn;
      rewrite ?announce_run by done; rewrite ?Hcu, ?Hcb; cbn;
      destruct (send_throws net c _); cbn; rewrite <-?app_assoc;
      reflexivity.
  - apply passes_typing_check_fields in Hp as (Hty & Hu & Hi).
    pose proof (typing_is_not_chat _ Hty) as Hnc.
    cbn [field] in *. rewrite Hnc, Hty, Hu.
    assert (match default VUndefined (own props "isTyping") with
            | VUndefined => true | _ => false end = false) as ->.
    { by destruct (default VUndefined (own props "isTyping")). }
    cbn. rewrite andb_true_r.
    fold new. subst s'. destruct new; cbn;
      rewrite ?announce_run by done; rewrite ?Hcu, ?Hcb; cbn;
      destruct (send_throws net c _); cbn; rewrite <-?app_assoc;
      reflexivity.
Qed.

(** X9: a chat or typing message that passes the check of its branch
    with a [username] that does not convert to a string (an object
    with an own [toString]) is answered with the error envelope and
    nothing else is sent or broadcast; all the same, a sender that
    had no name is now bound to that value. *)
Theorem unprintable_name_bound_in_silence net c message s :
  passes_chat_check message = true ∨ passes_typing_check message = true →
  converts (field message "username") = false →
  ∃ t, on_message net c (JSONText message) s
       = (Normal tt,
          (if bool_decide (clientUsernames s !! c = None)
           then bound_to c (field message "username") s else s), t)
     ∧ sends t = [(c, ErrorEnvelope "Failed to process message")]
     ∧ broadcasts t = []
     ∧ broadcastsExcept t = [].
Proof.
  intros Hpass Hcu. rewrite on_message_name_throws by done.
  eexists. split; [reflexivity|]. split_and!; read_trace.
Qed.

(** Lurker 1 types under the name [{"toString": 0}]. *)
Lemma lurker_takes_unprintable_name :
  ∃ t, on_message calm 1
         (JSONText (typing_message unprintable (VBool true)))
         alice_and_two_lurkers
       = (Normal tt, bound_to 1 unprintable alice_and_two_lurkers, t)
     ∧ sends t = [(1, ErrorEnvelope "Failed to process message")]
     ∧ broadcasts t = []
     ∧ broadcastsExcept t = [].
Proof.
  apply (unprintable_name_bound_in_silence calm 1
           (typing_message unprintable (VBool true)) alice_and_two_lurkers).
  - right. reflexivity.
  - reflexivity.
Defined.



(** Every frame takes one of the paths above. *)
Lemma chat_check_fails message :
  is_string (field message "type") "chat-message" = true →
  passes_chat_check message = false →
  truthy (field message "username") = false
  ∨ truthy (field message "text") = false.
Proof.
  unfold passes_chat_check. intros ->. cbn.
  destruct (truthy (field message "username")); cbn; auto.
Qed.

Lemma typing_check_fails message :
  is_string (field message "type") "typing" = true →
  passes_typing_check message = false →
  truthy (field message "username") = false
  ∨ field message "isTyping" = VUndefined.
Proof.
  unfold passes_typing_check. intros ->. cbn.
  destruct (truthy (field message "username")); cbn; [|auto].
  destruct (field message "isTyping"); auto; discriminate.
Qed.

(** What the message listener hands to [send], on every path: the
    announcement of a newly bound name or nothing, then the relay of
    the frame to some open registered sessions or nothing, then the
    error envelope for the sender or nothing. *)
Lemma on_message_sends_shape net c data s r s' t :
  on_message net c data s = (r, s', t) →
  let everyone := filter (λ x, readyState net x = OPEN)
                    (connectedClients s) in
  ∃ announced relay failed,
    sends t = announced ++ relay ++ failed
    ∧ (announced = []
       ∨ ∃ u, clientUsernames s !! c = None ∧ s' = bound_to c u s
              ∧ announced
                = map (λ x, (x, System (render u " joined the chat")))
                    everyone
                  ++ map (λ x, (x, OnlineCount (size (clientUsernames s'))))
                       everyone)
    ∧ (relay = []
       ∨ ∃ v to, data = JSONText v ∧ to ⊆ everyone
                 ∧ relay = map (λ x, (x, Relay v)) to)
    ∧ (failed = []
       ∨ failed = [(c, ErrorEnvelope "Failed to process message")]).
Proof.
  intros Hrun everyone.
  assert (∀ u, clientUsernames s !! c = None →
    ∃ u0, clientUsernames s !! c = None ∧ bound_to c u s = bound_to c u0 s
      ∧ map (λ x, (x, System (render u " joined the chat"))) everyone
        ++ map (λ x, (x, OnlineCount (size (clientUsernames (bound_to c u s)))))
             everyone
        = map (λ x, (x, System (render u0 " joined the chat"))) everyone
          ++ map (λ x, (x, OnlineCount
                             (size (clientUsernames (bound_to c u s)))))
               everyone) as Hann by eauto.
  assert (filter (λ x, x ≠ c ∧ readyState net x = OPEN) (connectedClients s)
          ⊆ everyone) as Hsub.
  { intros x. subst everyone. rewrite !list_elem_of_filter. tauto. }
  destruct data as [raw|message].
  { rewrite on_message_not_json in Hrun. injection Hrun as <- <- <-.
    exists [], [], [(c, ErrorEnvelope "Failed to process message")].
    split; [destruct (send_throws net c _); read_trace|]. auto. }
  assert ((message = VNull ∨ message = VUndefined)
          ∨ (message ≠ VNull ∧ message ≠ VUndefined)) as [Hnull|Hnull]
    by (destruct message; auto).
  { rewrite on_message_null in Hrun by done. injection Hrun as <- <- <-.
    exists [], [], [(c, ErrorEnvelope "Failed to process message")].
    split; [read_trace|]. auto. }
  destruct (passes_chat_check message) eqn:Hchat.
  { destruct (converts (field message "username")) eqn:Hcu.
    2:{ rewrite on_message_name_throws in Hrun by auto.
        injection Hrun as <- <- <-.
        exists [], [], [(c, ErrorEnvelope "Failed to process message")].
        split; [read_trace|]. auto. }
    destruct (converts (field message "text")) eqn:Hct.
    - pose proof (passes_chat_check_fields _ Hchat) as (Hty & Hu & Ht).
      rewrite on_message_chat in Hrun by done. cbv zeta in Hrun.
      injection Hrun as <- <- <-.
      destruct (bool_decide (clientUsernames s !! c = None)) eqn:Hnew.
      + apply bool_decide_eq_true in Hnew. eexists _, _, [].
        split; [read_trace; by rewrite app_nil_r|].
        split_and!; [right; by apply Hann| |by left].
        right. exists message, everyone. done.
      + exists [], (map (λ x, (x, Relay message)) everyone), [].
        split; [read_trace; by rewrite app_nil_r|].
        split_and!; [by left| |by left].
        right. exists message, everyone. done.
    - rewrite on_message_body_throws in Hrun by auto. cbv zeta in Hrun.
      injection Hrun as <- <- <-.
      destruct (bool_decide (clientUsernames s !! c = None)) eqn:Hnew.
      + apply bool_decide_eq_true in Hnew. eexists _, [], _.
        split; [read_trace; reflexivity|].
        split_and!; [right; by apply Hann|by left|by right].
      + exists [], [], [(c, ErrorEnvelope "Failed to process message")].
        split; [read_trace|]. auto. }
  destruct (is_string (field message "type") "chat-message") eqn:Hty.
  { rewrite on_message_chat_rejected in Hrun
      by auto using chat_check_fails.
    injection Hrun as <- <- <-. exists [], [], []. auto. }
  destruct (passes_typing_check message) eqn:Htyping.
  { destruct (converts (field message "username")) eqn:Hcu.
    2:{ rewrite on_message_name_throws in Hrun by auto.
        injection Hrun as <- <- <-.
        exists [], [], [(c, ErrorEnvelope "Failed to process message")].
        split; [read_trace|]. auto. }
    destruct (converts (field message "isTyping")) eqn:Hci.
    - pose proof (passes_typing_check_fields _ Htyping) as (Hty' & Hu & Hi).
      rewrite on_message_typing in Hrun by done. cbv zeta in Hrun.
      injection Hrun as <- <- <-.
      destruct (bool_decide (clientUsernames s !! c = None)) eqn:Hnew.
      + apply bool_decide_eq_true in Hnew. eexists _, _, [].
        split; [read_trace; by rewrite app_nil_r|].
        split_and!; [right; by apply Hann| |by left].
        right. eexists message, _. done.
      + eexists [], _, [].
        split; [read_trace; by rewrite app_nil_r|].
        split_and!; [by left| |by left].
        right. eexists message, _. done.
    - rewrite on_message_body_throws in Hrun by auto. cbv zeta in Hrun.
      injection Hrun as <- <- <-.
      destruct (bool_decide (clientUsernames s !! c = None)) eqn:Hnew.
      + apply bool_decide_eq_true in Hnew. eexists _, [], _.
        split; [read_trace; reflexivity|].
        split_and!; [right; by apply Hann|by left|by right].
      + exists [], [], [(c, ErrorEnvelope "Failed to process message")].
        split; [read_trace|]. auto. }
  destruct (is_string (field message "type") "typing") eqn:Hty'.
  { rewrite on_message_typing_rejected in Hrun
      by auto using typing_check_fails.
    injection Hrun as <- <- <-. exists [], [], []. auto. }
  rewrite on_message_unknown in Hrun by tauto.
  injection Hrun as <- <- <-. exists [], [], []. auto.
Qed.

(** X4: everything the message listener hands to [send] is either
    addressed to a registered session whose socket is open, and then
    it is the join text of the name just bound to the sender, the
    count as it stands after the frame, or the frame's own value; or
    it is the error envelope, addressed to the sender. *)
Theorem message_sends_discipline net c data s r s' t :
  on_message net c data s = (r, s', t) →
  ∀ x m, (x, m) ∈ sends t →
    (x ∈ connectedClients s ∧ readyState net x = OPEN
     ∧ ((∃ u, clientUsernames s !! c = None
              ∧ clientUsernames s' !! c = Some u
              ∧ m = System (render u " joined the chat"))
        ∨ m = OnlineCount (size (clientUsernames s'))
        ∨ (∃ v, data = JSONText v ∧ m = Relay v)))
    ∨ (x = c ∧ m = ErrorEnvelope "Failed to process message").
Proof.
  intros Hrun x m Hin.
  destruct (on_message_sends_shape _ _ _ _ _ _ _ Hrun)
    as (announced & relay & failed & Hsends & Hann & Hrel & Hfail).
  rewrite Hsends, !elem_of_app in Hin.
  assert (∀ y, y ∈ filter (λ x, readyState net x = OPEN) (connectedClients s)
               → y ∈ connectedClients s ∧ readyState net y = OPEN) as Hopen.
  { intros y. rewrite list_elem_of_filter. tauto. }
  destruct Hin as [Hin|[Hin|Hin]].
  - destruct Hann as [->|(u & Hnew & -> & ->)];
      [by apply elem_of_nil in Hin|].
    apply elem_of_app in Hin
      as [(y & [= -> ->] & Hy)%list_elem_of_fmap
         |(y & [= -> ->] & Hy)%list_elem_of_fmap];
      apply Hopen in Hy as [? ?]; left; split_and!; try done.
    + left. exists u. split_and!; [done| |done].
      cbn. by rewrite lookup_insert_eq.
    + right. by left.
  - destruct Hrel as [->|(v & to & -> & Hto & ->)];
      [by apply elem_of_nil in Hin|].
    apply list_elem_of_fmap in Hin as (y & [= -> ->] & Hy).
    apply Hto, Hopen in Hy as [? ?]. left. split_and!; try done.
    right. right. by exists v.
  - destruct Hfail as [-> | ->]; [by apply elem_of_nil in Hin|].
    apply list_elem_of_singleton in Hin as [= -> ->]. by right.
Qed.

(** On the rough network lurker 2 says "hi" as Cy: the closing socket
    1 gets nothing, and each of the six envelopes is one of those
    allowed. *)
Lemma discipline_on_a_rough_network :
  sends (on_message rough 2
           (JSONText (chat_message (VStr "Cy") (VStr "hi")))
           alice_and_two_lurkers).2
  = [(0, System (Lit "Cy joined the chat"));
     (2, System (Lit "Cy joined the chat"));
     (0, OnlineCount 2); (2, OnlineCount 2);
     (0, Relay (chat_message (VStr "Cy") (VStr "hi")));
     (2, Relay (chat_message (VStr "Cy") (VStr "hi")))]
  ∧ Forall
      (λ p,
         (p.1 ∈ [0; 1; 2] ∧ readyState rough p.1 = OPEN
          ∧ ((∃ u, clientUsernames alice_and_two_lurkers !! 2 = None
                   ∧ clientUsernames
                       (bound_to 2 (VStr "Cy") alice_and_two_lurkers) !! 2
                     = Some u
                   ∧ p.2 = System (render u " joined the chat"))
             ∨ p.2 = OnlineCount
                       (size (clientUsernames
                                (bound_to 2 (VStr "Cy")
                                   alice_and_two_lurkers)))
             ∨ (∃ v, JSONText (chat_message (VStr "Cy") (VStr "hi"))
                     = JSONText v
                     ∧ p.2 = Relay v)))
         ∨ (p.1 = 2 ∧ p.2 = ErrorEnvelope "Failed to process message"))
      (sends (on_message rough 2
                (JSONText (chat_message (VStr "Cy") (VStr "hi")))
                alice_and_two_lurkers).2).
Proof.
  split; [vm_compute; reflexivity|].
  apply Forall_forall. intros [x m] Hin.
  apply (message_sends_discipline rough 2
           (JSONText (chat_message (VStr "Cy") (VStr "hi")))
           alice_and_two_lurkers (Normal tt)
           (bound_to 2 (VStr "Cy") alice_and_two_lurkers)
           (on_message rough 2
              (JSONText (chat_message (VStr "Cy") (VStr "hi")))
              alice_and_two_lurkers).2);
    [vm_compute; reflexivity|exact Hin].
Defined.

Lemma on_connection_sends net c s r s' t :
  on_connection net c s = (r, s', t) →
  s' = Registry (set_add c (connectedClients s)) (clientUsernames s)
  ∧ sends t
    = [(c, System (Lit "Welcome to the chat! You are now connected."));
       (c, OnlineCount (size (clientUsernames s)))].
Proof.
  rewrite on_connection_run.
  destruct (send_throws net c (System _)),
    (send_throws net c (OnlineCount _)); by intros [= <- <- <-].
Qed.

(** X11: in every reachable state and for every event, each count
    envelope the handler hands to [send], to the newcomer on
    connection or to everyone after a join or a departure, carries the
    number of registered sessions that have a name once the event is
    handled. *)
Theorem counts_sent_are_current net e s r s' t :
  reachable s →
  enabled s e = true →
  handle net e s = (r, s', t) →
  ∀ x n, (x, OnlineCount n) ∈ sends t → n = length (bound_sessions s').
Proof.
  intros Hs Hen Hrun x n Hin.
  apply reachable_consistent in Hs.
  rewrite bound_sessions_length by by eapply consistent_step.
  destruct e as [c|c data|c|c]; cbn [handle] in Hrun.
  - apply on_connection_sends in Hrun as [-> Heq]. rewrite Heq in Hin.
    apply elem_of_cons in Hin as [Hin|Hin]; [discriminate|].
    apply list_elem_of_singleton in Hin. by injection Hin as _ ->.
  - destruct (on_message_sends_shape _ _ _ _ _ _ _ Hrun)
      as (announced & relay & failed & Hsends & Hann & Hrel & Hfail).
    rewrite Hsends, !elem_of_app in Hin. destruct Hin as [Hin|[Hin|Hin]].
    + destruct Hann as [->|(u & Hnew & -> & ->)];
        [by apply elem_of_nil in Hin|].
      apply elem_of_app in Hin
        as [(y & [=] & Hy)%list_elem_of_fmap
           |(y & [= _ ->] & Hy)%list_elem_of_fmap]. done.
    + destruct Hrel as [->|(v & to & -> & Hto & ->)];
        [by apply elem_of_nil in Hin|].
      by apply list_elem_of_fmap in Hin as (y & [=] & Hy).
    + destruct Hfail as [-> | ->]; [by apply elem_of_nil in Hin|].
      by apply list_elem_of_singleton in Hin as [=].
  - rewrite on_close_run in Hrun. cbv zeta in Hrun. revert Hin.
    destruct (truthy (identity c s)), (converts (identity c s));
      injection Hrun as <- <- <-; read_trace;
      rewrite ?elem_of_app, ?list_elem_of_fmap;
      try (by intros []%elem_of_nil).
    intros [(y & [=] & _)|(y & [= _ ->] & _)]. done.
  - rewrite on_error_run in Hrun. cbv zeta in Hrun. revert Hin.
    destruct (truthy (identity c s)), (converts (identity c s));
      injection Hrun as <- <- <-; read_trace;
      rewrite ?elem_of_app, ?list_elem_of_fmap;
      try (by intros []%elem_of_nil).
    intros [(y & [=] & _)|(y & [= _ ->] & _)]. done.
Qed.

(** When lurker 1 joins as Bob, every count sent is 2. *)
Lemma count_after_bob_joins :
  length (bound_sessions (bound_to 1 (VStr "Bob") alice_and_two_lurkers)) = 2
  ∧ Forall
      (λ p, ∀ n, p.2 = OnlineCount n →
                 n = length (bound_sessions
                               (bound_to 1 (VStr "Bob")
                                  alice_and_two_lurkers)))
      (sends (handle calm
                (Message 1
                   (JSONText (chat_message (VStr "Bob") (VStr "hi"))))
                alice_and_two_lurkers).2).
Proof.
  split; [vm_compute; reflexivity|].
  apply Forall_forall. intros [x m] Hin n Hm. cbn [snd] in Hm. subst m.
  apply (counts_sent_are_current calm
           (Message 1 (JSONText (chat_message (VStr "Bob") (VStr "hi"))))
           alice_and_two_lurkers (Normal tt)
           (bound_to 1 (VStr "Bob") alice_and_two_lurkers)
           (handle calm
              (Message 1
                 (JSONText (chat_message (VStr "Bob") (VStr "hi"))))
              alice_and_two_lurkers).2
           alice_and_two_lurkers_reachable eq_refl) with (x := x);
    [vm_compute; reflexivity|exact Hin].
Defined.

Lemma set_delete_set_add_fresh c l :
  c ∉ l → set_delete c (set_add c l) = l.
Proof.
  intros Hc. unfold set_add, set_delete.
  rewrite bool_decide_eq_false_2 by done.
  rewrite filter_app, filter_cons, decide_False by (by intros []).
  rewrite filter_nil, app_nil_r.
  induction l as [|x l IH]; [done|].
  apply not_elem_of_cons in Hc as [Hx Hl].
  by rewrite filter_cons, decide_True, IH by done.
Qed.

Lemma run_frames_of c cs us frames rest st s' t :
  connectedClients st = cs →
  delete c (clientUsernames st) = us →
  run (frames_of c frames ++ rest) st = Some (s', t) →
  ∃ st' t', connectedClients st' = cs
            ∧ delete c (clientUsernames st') = us
            ∧ run rest st' = Some (s', t').
Proof.
  revert st t. induction frames as [|[net data] frames IH]; intros st t Hcs Hus.
  { cbn. eauto. }
  cbn [frames_of map app run fst snd handle].
  destruct (enabled st (Message c data)); [|done].
  destruct (on_message net c data st) as [[r st1] t1] eqn:Hrun.
  destruct (on_message_registry _ _ _ _ _ _ _ Hrun)
    as [-> [->|(u & _ & _ & ->)]].
  - destruct (run _ st) as [[s2 t2]|] eqn:Hrest; [|done].
    intros [= <- <-]. by eapply IH.
  - destruct (run _ (bound_to c u st)) as [[s2 t2]|] eqn:Hrest; [|done].
    intros [= <- <-]. eapply IH; [| |done]; cbn; [done|].
    by rewrite delete_insert_eq.
Qed.

(** X12: the life of one session that was not registered before (its
    connection, any frames it sends, each under any transport, and
    then its [close] or [error]), run from a reachable state and
    ending without an escaped exception, leaves both collections
    exactly as they were. *)
Theorem session_life_leaves_registry_as_found
    c s net0 frames net1 (lifecycle : ws → event) s' t :
  lifecycle = Close ∨ lifecycle = Error →
  reachable s →
  c ∉ connectedClients s →
  run ((net0, Connection c) :: frames_of c frames ++ [(net1, lifecycle c)]) s
  = Some (s', t) →
  s' = s.
Proof.
  intros Hl Hs Hc.
  assert (clientUsernames s !! c = None) as Hnone.
  { destruct (clientUsernames s !! c) eqn:Hu; [|done].
    destruct Hc. eapply bound_live; [by apply reachable_consistent|].
    by rewrite Hu. }
  cbn [run enabled handle].
  destruct (on_connection net0 c s) as [[r s1] t1] eqn:Hconn.
  apply on_connection_registry in Hconn as [-> ->].
  destruct (run _ _) as [[s2 t2]|] eqn:Hrun; [|done].
  intros [= <- _].
  apply (run_frames_of c (set_add c (connectedClients s)) (clientUsernames s))
    in Hrun as (st' & t' & Hcs & Hus & Hlast);
    [|done|by apply delete_id].
  assert (∃ r3 t3, handle net1 (lifecycle c) st'
                    = (r3, unregistered c st', t3)
                  ∧ enabled st' (lifecycle c) = true)
    as (r3 & t3 & Hend & Hen).
  { destruct Hl as [-> | ->]; cbn [handle enabled].
    - destruct (on_close net1 c st') as [[r3 s3] t3] eqn:Hend.
      apply on_close_registry in Hend as ->. eauto.
    - destruct (on_error net1 c st') as [[r3 s3] t3] eqn:Hend.
      apply on_error_registry in Hend as ->. eauto. }
  revert Hlast. cbn [run]. rewrite Hen, Hend.
  destruct r3; [|done]. intros [= <- _].
  unfold unregistered. rewrite Hcs, Hus, set_delete_set_add_fresh by done.
  by destruct s.
Qed.

(** A fourth session connects, chats as Dan, types, and closes. *)
Lemma dan_comes_and_goes :
  unregistered 3
    (bound_to 3 (VStr "Dan")
       (Registry [0; 1; 2; 3] {[ 0 := VStr "Alice" ]}))
  = alice_and_two_lurkers.
Proof.
  apply (session_life_leaves_registry_as_found 3 alice_and_two_lurkers calm
           [(calm, JSONText (chat_message (VStr "Dan") (VStr "hi")));
            (rough, JSONText (typing_message (VStr "Dan") (VBool true)))]
           calm Close
           (unregistered 3
              (bound_to 3 (VStr "Dan")
                 (Registry [0; 1; 2; 3] {[ 0 := VStr "Alice" ]})))
           (default (initial, [])
              (run ((calm, Connection 3)
                    :: frames_of 3
                         [(calm, JSONText (chat_message (VStr "Dan")
                                             (VStr "hi")));
                          (rough, JSONText (typing_message (VStr "Dan")
                                              (VBool true)))]
                    ++ [(calm, Close 3)]) alice_and_two_lurkers)).2).
  - left. reflexivity.
  - apply alice_and_two_lurkers_reachable.
  - vm_compute. intros Hin. repeat (apply elem_of_cons in Hin as [Hin|Hin];
      [discriminate|]). by apply elem_of_nil in Hin.
  - vm_compute. reflexivity.
Defined.

(** ** Whole sessions *)

Lemma handle_keeps_other_names net e s r s' t c u :
  e ≠ Close c → e ≠ Error c →
  clientUsernames s !! c = Some u →
  handle net e s = (r, s', t) →
  clientUsernames s' !! c = Some u.
Proof.
  intros Hclose Herror Hu Hrun.
  destruct e as [c'|c' data|c'|c']; cbn [handle] in Hrun.
  - by apply on_connection_registry in Hrun as [_ ->].
  - apply on_message_registry in Hrun as [_ [->|(v & _ & Hnew & ->)]];
      [done|].
    cbn. rewrite lookup_insert_ne; [done|]. intros ->. congruence.
  - apply on_close_registry in Hrun as ->. cbn.
    rewrite lookup_delete_ne; [done|]. intros ->. by destruct Hclose.
  - apply on_error_registry in Hrun as ->. cbn.
    rewrite lookup_delete_ne; [done|]. intros ->. by destruct Herror.
Qed.

(** X15: a name, once bound, stays bound to its session unchanged
    through any run of events that does not contain the [close] or the
    [error] of that session, whatever the session itself or the others
    send. *)
Theorem name_kept_for_life script s s' t c u :
  clientUsernames s !! c = Some u →
  Forall (λ p, p.2 ≠ Close c ∧ p.2 ≠ Error c) script →
  run script s = Some (s', t) →
  clientUsernames s' !! c = Some u.
Proof.
  intros Hu Hscript. revert s t Hu.
  induction Hscript as [|[net e] script [Hclose Herror] _ IH];
    intros s t Hu; cbn [run].
  { by intros [= <- _]. }
  destruct (enabled s e); [|done].
  destruct (handle net e s) as [[[[]|] s1] t1] eqn:Hrun; [|done].
  destruct (run script s1) as [[s2 t2]|] eqn:Hrest; [|done].
  intros [= <- _]. eapply IH; [|done].
  by eapply handle_keeps_other_names.
Qed.

(** Alice signs as Bob, Bob arrives, types, and leaves: session 0 is
    still Alice. *)
Lemma alice_through_it_all :
  clientUsernames (Registry [0; 2] {[ 0 := VStr "Alice" ]}) !! 0
  = Some (VStr "Alice").
Proof.
  apply (name_kept_for_life
           [(calm, Message 0
                     (JSONText (chat_message (VStr "Bob") (VStr "hi"))));
            (calm, Message 1
                     (JSONText (typing_message (VStr "Bob") (VBool true))));
            (rough, Close 1)]
           alice_and_two_lurkers
           (Registry [0; 2] {[ 0 := VStr "Alice" ]})
           (default (initial, [])
              (run [(calm, Message 0
                       (JSONText (chat_message (VStr "Bob") (VStr "hi"))));
                    (calm, Message 1
                       (JSONText (typing_message (VStr "Bob") (VBool true))));
                    (rough, Close 1)] alice_and_two_lurkers)).2
           0 (VStr "Alice")).
  - reflexivity.
  - repeat constructor; discriminate.
  - vm_compute. reflexivity.
Defined.

Lemma on_message_unaccepted net c data s :
  unaccepted data = true →
  ∃ t, on_message net c data s = (Normal tt, s, t)
     ∧ broadcasts t = [] ∧ broadcastsExcept t = []
     ∧ Forall (λ p, p.1 = c) (sends t).
Proof.
  destruct data as [raw|message]; cbn [unaccepted].
  { intros _. rewrite on_message_not_json. eexists. split; [reflexivity|].
    destruct (send_throws net c _); split_and!; try reflexivity;
      read_trace; by repeat constructor. }
  rewrite andb_true_iff, !negb_true_iff. intros [Hchat Htyping].
  assert ((message = VNull ∨ message = VUndefined)
          ∨ (message ≠ VNull ∧ message ≠ VUndefined)) as [Hnull|Hnull]
    by (destruct message; auto).
  { rewrite on_message_null by done. eexists. split; [reflexivity|].
    split_and!; read_trace. by repeat constructor. }
  destruct (is_string (field message "type") "chat-message") eqn:Hty.
  { rewrite on_message_chat_rejected by auto using chat_check_fails.
    eexists. split; [reflexivity|]. split_and!; try reflexivity.
    constructor. }
  destruct (is_string (field message "type") "typing") eqn:Hty'.
  { rewrite on_message_typing_rejected by auto using typing_check_fails.
    eexists. split; [reflexivity|]. split_and!; try reflexivity.
    constructor. }
  rewrite on_message_unknown by tauto.
  eexists. split; [reflexivity|]. split_and!; try reflexivity. constructor.
Qed.

Lemma run_unaccepted_frames c frames st :
  c ∈ connectedClients st →
  Forall (λ p, unaccepted p.2 = true) frames →
  ∃ t, run (frames_of c frames) st = Some (st, t)
     ∧ broadcasts t = [] ∧ broadcastsExcept t = []
     ∧ Forall (λ p, p.1 = c) (sends t).
Proof.
  intros Hc. induction 1 as [|[net data] frames Hun _ IH].
  { exists []. split_and!; try reflexivity. constructor. }
  destruct IH as (t2 & Hrest & Hb2 & He2 & Hs2).
  destruct (on_message_unaccepted net c data st Hun)
    as (t1 & Hrun & Hb1 & He1 & Hs1).
  exists (t1 ++ t2). cbn [frames_of map run fst snd handle enabled].
  rewrite bool_decide_eq_true_2 by done.
  rewrite Hrun. fold (frames_of c frames). rewrite Hrest.
  split; [reflexivity|].
  rewrite broadcasts_app, broadcastsExcept_app, sends_app, Hb1, Hb2, He1, He2.
  split_and!; [done..|]. by apply Forall_app.
Qed.

Lemma run_app script1 script2 s s1 t1 :
  run script1 s = Some (s1, t1) →
  run (script1 ++ script2) s
  = match run script2 s1 with
    | Some (s2, t2) => Some (s2, t1 ++ t2)
    | None => None
    end.
Proof.
  revert s t1. induction script1 as [|[net e] script1 IH]; intros s t1; cbn.
  { intros [= <- <-]. by destruct (run script2 s) as [[? ?]|]. }
  destruct (enabled s e); [|done].
  destruct (handle net e s) as [[[[]|] s'] t'] eqn:Hrun; [|done].
  destruct (run script1 s') as [[s2 t2]|] eqn:Hrest; [|done].
  intros [= <- <-]. rewrite (IH _ _ Hrest).
  destruct (run script2 s2) as [[? ?]|]; [|done]. by rewrite app_assoc.
Qed.

Lemma newcomer_run net c s :
  ∃ t, on_connection net c s
       = (Normal tt,
          Registry (set_add c (connectedClients s)) (clientUsernames s), t)
     ∧ broadcasts t = [] ∧ broadcastsExcept t = []
     ∧ Forall (λ p, p.1 = c) (sends t).
Proof.
  rewrite on_connection_run. eexists. split; [reflexivity|].
  destruct (send_throws net c (System _)),
    (send_throws net c (OnlineCount _)); split_and!; try reflexivity;
    by repeat constructor.
Qed.

(** X16: a session that was not registered before and whose frames
    are all turned down (not JSON, [null], an unknown type, a failed
    check) stays invisible for its whole life: the run of its
    connection, its frames and its [close] or [error] always
    completes, broadcasts nothing, hands to [send] only envelopes
    addressed to the session itself, and leaves the registry as it
    found it. *)
Theorem lurker_life_is_invisible
    c s net0 frames net1 (lifecycle : ws → event) :
  lifecycle = Close ∨ lifecycle = Error →
  reachable s →
  c ∉ connectedClients s →
  Forall (λ p, unaccepted p.2 = true) frames →
  ∃ t, run ((net0, Connection c)
            :: frames_of c frames ++ [(net1, lifecycle c)]) s
       = Some (s, t)
     ∧ broadcasts t = [] ∧ broadcastsExcept t = []
     ∧ Forall (λ p, p.1 = c) (sends t).
Proof.
  intros Hl Hs Hc Hframes.
  assert (clientUsernames s !! c = None) as Hnone.
  { destruct (clientUsernames s !! c) eqn:Hu; [|done].
    destruct Hc. eapply bound_live; [by apply reachable_consistent|].
    by rewrite Hu. }
  set (s1 := Registry (set_add c (connectedClients s)) (clientUsernames s)).
  destruct (newcomer_run net0 c s) as (t0 & Hconn & Hb0 & He0 & Hs0).
  destruct (run_unaccepted_frames c frames s1) as (t1 & Hrun & Hb1 & He1 & Hs1);
    [apply elem_of_set_add; by left|done|].
  destruct (departure_of_lurker_silent net1 c s1 lifecycle Hl Hnone)
    as (t2 & Hend & Hs2 & Hb2 & He2).
  assert (unregistered c s1 = s) as Hback.
  { unfold unregistered, s1. cbn [connectedClients clientUsernames].
    rewrite set_delete_set_add_fresh, delete_id by done. by destruct s. }
  exists (t0 ++ t1 ++ t2 ++ []).
  cbn [run enabled handle]. rewrite Hconn. fold s1.
  rewrite (run_app _ _ _ _ _ Hrun). cbn [run].
  assert (enabled s1 (lifecycle c) = true) as ->
    by (by destruct Hl as [-> | ->]).
  rewrite Hend, Hback. split; [reflexivity|].
  rewrite !broadcasts_app, !broadcastsExcept_app, !sends_app,
    Hb0, Hb1, Hb2, He0, He1, He2, Hs2.
  split_and!; [done..|]. rewrite !Forall_app. split_and!; try done.
  all: constructor.
Qed.

(** A fourth session connects, sends four frames that are all turned
    down, and closes. *)
Lemma silent_visitor :
  ∃ t, run ((calm, Connection 3)
            :: frames_of 3
                 [(calm, NotJSON "{not json");
                  (rough, JSONText VNull);
                  (calm, JSONText (chat_message (VStr "Dan") (VStr "")));
                  (calm, JSONText (VObj [("type", VStr "ping")]))]
            ++ [(calm, Close 3)]) alice_and_two_lurkers
       = Some (alice_and_two_lurkers, t)
     ∧ broadcasts t = [] ∧ broadcastsExcept t = []
     ∧ Forall (λ p, p.1 = 3) (sends t).
Proof.
  apply (lurker_life_is_invisible 3 alice_and_two_lurkers calm
           [(calm, NotJSON "{not json");
            (rough, JSONText VNull);
            (calm, JSONText (chat_message (VStr "Dan") (VStr "")));
            (calm, JSONText (VObj [("type", VStr "ping")]))]
           calm Close).
  - left. reflexivity.
  - apply alice_and_two_lurkers_reachable.
  - vm_compute. intros Hin. repeat (apply elem_of_cons in Hin as [Hin|Hin];
      [discriminate|]). by apply elem_of_nil in Hin.
  - repeat constructor.
Defined.

(** ** The count and the script; frames that are no envelope *)

(** A frame that passes a check binds its sender if it had no name,
    whatever happens afterwards in the listener. *)
Lemma on_message_accepted_registry net c message s r s' t :
  passes_chat_check message = true ∨ passes_typing_check message = true →
  on_message net c (JSONText message) s = (r, s', t) →
  s' = if bool_decide (clientUsernames s !! c = None)
       then bound_to c (field message "username") s else s.
Proof.
  intros Hpass Hrun.
  destruct (converts (field message "username")) eqn:Hcu.
  2:{ rewrite on_message_name_throws in Hrun by done.
      by injection Hrun as _ <- _. }
  destruct Hpass as [Hp|Hp].
  - destruct (converts (field message "text")) eqn:Hct.
    + apply passes_chat_check_fields in Hp as (Hty & Hu & Ht).
      rewrite on_message_chat in Hrun by done.
      by injection Hrun as _ <- _.
    + rewrite on_message_body_throws in Hrun by auto.
      by injection Hrun as _ <- _.
  - destruct (converts (field message "isTyping")) eqn:Hci.
    + apply passes_typing_check_fields in Hp as (Hty & Hu & Hi).
      rewrite on_message_typing in Hrun by done.
      by injection Hrun as _ <- _.
    + rewrite on_message_body_throws in Hrun by auto.
      by injection Hrun as _ <- _.
Qed.

Set Warnings "-clear-no-such-hyp".

Lemma tracks_step net e s r s' t live named :
  tracks s live named →
  enabled s e = true →
  handle net e s = (r, s', t) →
  tracks s' (live_step live e) (named_step named e).
Proof.
  intros [Hlive Hnamed Hsub] Hen Hrun.
  destruct e as [c|c data|c|c]; cbn [handle live_step named_step] in *.
  - apply on_connection_registry in Hrun as [_ ->]. split; cbn.
    + intros x. rewrite elem_of_set_add, Hlive. set_solver.
    + done.
    + set_solver.
  - apply bool_decide_eq_true in Hen.
    destruct (unaccepted data) eqn:Hun.
    + destruct (on_message_unaccepted net c data s Hun) as (t' & Hrun' & _).
      rewrite Hrun' in Hrun. by injection Hrun as _ <- _.
    + destruct data as [raw|message]; [done|]. cbn in Hun.
      assert (passes_chat_check message = true
              ∨ passes_typing_check message = true) as Hpass.
      { destruct (passes_chat_check message),
          (passes_typing_check message); auto; done. }
      apply (on_message_accepted_registry _ _ _ _ _ _ _ Hpass) in Hrun as ->.
      case_bool_decide as Hnew.
      * split; cbn; [done| |].
        -- by rewrite dom_insert_L, Hnamed.
        -- apply Hlive in Hen. set_solver.
      * split; [done| |].
        -- rewrite Hnamed. apply not_elem_of_dom_2 in Hnew || idtac.
           assert (c ∈ named) as Hc.
           { rewrite <-Hnamed. apply elem_of_dom.
             by destruct (clientUsernames s !! c); eauto. }
           set_solver.
        -- apply Hlive in Hen. set_solver.
  - apply on_close_registry in Hrun as ->. split; cbn.
    + intros x. rewrite elem_of_set_delete, Hlive. set_solver.
    + by rewrite dom_delete_L, Hnamed.
    + set_solver.
  - apply on_error_registry in Hrun as ->. split; cbn.
    + intros x. rewrite elem_of_set_delete, Hlive. set_solver.
    + by rewrite dom_delete_L, Hnamed.
    + set_solver.
Qed.

Lemma tracks_run script s s' t live named :
  tracks s live named →
  run script s = Some (s', t) →
  tracks s' (foldl live_step live script.*2)
    (foldl named_step named script.*2).
Proof.
  revert s t live named.
  induction script as [|[net e] script IH]; intros s t live named Hs; cbn.
  { by intros [= <- _]. }
  destruct (enabled s e) eqn:Hen; [|done].
  destruct (handle net e s) as [[[[]|] s1] t1] eqn:Hrun; [|done].
  destruct (run script s1) as [[s2 t2]|] eqn:Hrest; [|done].
  intros [= <- _]. eapply IH; [|done]. by eapply tracks_step.
Qed.

(** C1: after any script of connections, frames, closes and errors
    run from the start of the server, the registered sessions are
    exactly the sessions that have connected and not closed or errored
    since, the sessions with a bound name are exactly those of them
    that have sent a frame which passed a check, and [getOnlineCount]
    returns the number of the latter: a session that is gone, or that
    has no name, is not counted. *)
Theorem online_count_follows_the_script script s t :
  run script initial = Some (s, t) →
  let live := live_sessions script.*2 in
  let named := named_sessions script.*2 in
  (∀ c, c ∈ connectedClients s ↔ c ∈ live)
  ∧ (∀ c, is_Some (clientUsernames s !! c) ↔ c ∈ live ∧ c ∈ named)
  ∧ getOnlineCount s = (Normal (size (live ∩ named)), s, []).
Proof.
  intros Hrun live named.
  assert (tracks initial ∅ ∅) as Hinit.
  { split; cbn; [|by rewrite dom_empty_L|done].
    intros c. split; [by intros ?%elem_of_nil|by intros ?%elem_of_empty]. }
  destruct (tracks_run _ _ _ _ _ _ Hinit Hrun) as [Hlive Hnamed Hsub].
  fold (live_sessions script.*2) in Hlive, Hsub.
  fold (named_sessions script.*2) in Hnamed, Hsub.
  fold live in Hlive, Hsub. fold named in Hnamed, Hsub.
  split_and!.
  - done.
  - intros c. rewrite <-elem_of_dom, Hnamed. set_solver.
  - unfold getOnlineCount, gets. rewrite <-size_dom, Hnamed.
    do 3 f_equal. f_equal. set_solver.
Qed.

(** After [alice_closes] sessions 1 and 2 are live, session 1 has a
    name, and the count is 1. *)
Lemma count_after_alice_closes :
  size (live_sessions alice_closes.*2 ∩ named_sessions alice_closes.*2) = 1
  ∧ (∀ c, c ∈ [1; 2] ↔ c ∈ live_sessions alice_closes.*2)
  ∧ (∀ c, is_Some (({[ 1 := VStr "Bob" ]} : gmap ws value) !! c)
          ↔ c ∈ live_sessions alice_closes.*2
            ∧ c ∈ named_sessions alice_closes.*2)
  ∧ getOnlineCount (Registry [1; 2] {[ 1 := VStr "Bob" ]})
    = (Normal
         (size (live_sessions alice_closes.*2
                ∩ named_sessions alice_closes.*2)),
       Registry [1; 2] {[ 1 := VStr "Bob" ]}, []).
Proof.
  split; [vm_compute; reflexivity|].
  assert (run alice_closes initial
          = Some (Registry [1; 2] {[ 1 := VStr "Bob" ]},
                  (default (initial, []) (run alice_closes initial)).2))
    as Hrun by (vm_compute; reflexivity).
  exact (online_count_follows_the_script alice_closes _ _ Hrun).
Defined.

(** C5 as stated fails: the frame [{}] is JSON but no envelope (it has
    no [type]); the sender is sent no error envelope, nor anything
    else. *)
Lemma empty_object_gets_no_answer :
  field (VObj []) "type" = VUndefined
  ∧ ∃ t, on_message calm 1 (JSONText (VObj [])) alice_and_two_lurkers
         = (Normal tt, alice_and_two_lurkers, t)
       ∧ sends t = []
       ∧ (1, ErrorEnvelope "Failed to process message") ∉ sends t.
Proof.
  split; [reflexivity|]. eexists.
  split_and!; [vm_compute; reflexivity|reflexivity|].
  by intros ?%elem_of_nil.
Qed.

(** C5, amended: a frame that is not JSON, and the JSON frame [null],
    are answered with one error envelope, text "Failed to process
    message", sent to the sender and to nobody else; any other JSON
    frame that is no chat or typing envelope (a number, a string, a
    boolean, an array, an object whose [type] is another string or is
    missing) is logged and gets no answer at all.  In both cases
    nothing is broadcast and the registry is as before. *)
Theorem frame_without_envelope net c data s :
  ((∃ raw, data = NotJSON raw) ∨ data = JSONText VNull →
   ∃ t, on_message net c data s = (Normal tt, s, t)
      ∧ sends t = [(c, ErrorEnvelope "Failed to process message")]
      ∧ broadcasts t = []
      ∧ broadcastsExcept t = [])
  ∧ (∀ message,
       data = JSONText message →
       message ≠ VNull → message ≠ VUndefined →
       is_string (field message "type") "chat-message" = false →
       is_string (field message "type") "typing" = false →
       ∃ t, on_message net c data s = (Normal tt, s, t)
          ∧ sends t = []
          ∧ broadcasts t = []
          ∧ broadcastsExcept t = []).
Proof.
  split.
  - intros [[raw ->] | ->].
    + rewrite on_message_not_json. eexists. split; [reflexivity|].
      destruct (send_throws net c _); split_and!; reflexivity.
    + rewrite on_message_null by auto. eexists. split; [reflexivity|].
      split_and!; read_trace.
  - intros message -> Hnull Hundef Hchat Htyping.
    rewrite on_message_unknown by done.
    eexists. split; [reflexivity|]. split_and!; reflexivity.
Qed.

(** The frame [{not json] is answered, the frame ["hello"] is not. *)
Lemma not_json_answered_hello_ignored :
  (∃ t, on_message rough 0 (NotJSON "{not json") alice_and_two_lurkers
        = (Normal tt, alice_and_two_lurkers, t)
      ∧ sends t = [(0, ErrorEnvelope "Failed to process message")]
      ∧ broadcasts t = []
      ∧ broadcastsExcept t = [])
  ∧ (∃ t, on_message rough 0 (JSONText (VStr "hello")) alice_and_two_lurkers
          = (Normal tt, alice_and_two_lurkers, t)
        ∧ sends t = []
        ∧ broadcasts t = []
        ∧ broadcastsExcept t = []).
Proof.
  split.
  - apply (proj1 (frame_without_envelope rough 0 (NotJSON "{not json")
                    alice_and_two_lurkers)).
    left. by exists "{not json".
  - apply (proj2 (frame_without_envelope rough 0 (JSONText (VStr "hello"))
                    alice_and_two_lurkers) (VStr "hello"));
      [reflexivity|discriminate|discriminate|reflexivity|reflexivity].
Defined.

(** ** Properties of the static file server *)


(** X14: the [Content-Type] of a 200 response is "text/css" exactly
    when the extension is ".css", "application/javascript" exactly
    when it is ".js", and "text/html" for every other extension, the
    empty one and upper-case spellings included. *)
Theorem content_type_by_extension path_extname disk filePath data :
  disk filePath = Some data →
  ∃ contentType,
    heads_written (serveStaticFile path_extname disk filePath)
    = [(200, contentType)]
    ∧ (contentType = "text/css" ↔ path_extname filePath = ".css")
    ∧ (contentType = "application/javascript"
       ↔ path_extname filePath = ".js")
    ∧ (contentType = "text/html"
       ↔ path_extname filePath ≠ ".css" ∧ path_extname filePath ≠ ".js").
Proof.
  intros Hd. unfold serveStaticFile. rewrite Hd.
  destruct (String.eqb_spec (path_extname filePath) ".css") as [Hcss|Hcss].
  { exists "text/css". rewrite Hcss. cbn. split_and!; [done|done| |];
      split; try done; by intros []. }
  destruct (String.eqb_spec (path_extname filePath) ".js") as [Hjs|Hjs].
  { exists "application/javascript". rewrite Hjs. cbn.
    split_and!; [done| | |]; split; try done; by intros []. }
  exists "text/html". split_and!.
  - by destruct (String.eqb (path_extname filePath) ".html").
  - split; [done|by intros ?].
  - split; [done|by intros ?].
  - done.
Qed.

(** A picture is served as "text/html". *)
Lemma picture_served_as_html :
  ∃ contentType,
    heads_written
      (serveStaticFile sample_extname sample_disk "/app/public/logo.png")
    = [(200, contentType)]
    ∧ (contentType = "text/css"
       ↔ sample_extname "/app/public/logo.png" = ".css")
    ∧ (contentType = "application/javascript"
       ↔ sample_extname "/app/public/logo.png" = ".js")
    ∧ (contentType = "text/html"
       ↔ sample_extname "/app/public/logo.png" ≠ ".css"
         ∧ sample_extname "/app/public/logo.png" ≠ ".js").
Proof.
  apply (content_type_by_extension sample_extname sample_disk
           "/app/public/logo.png" "PNG").
  reflexivity.
Defined.
